(** * The dispatch surface of [agentverse_sdk/server.py]

    A shallow embedding of the [AgentServer] class: the webhook view, the
    health view, the custom endpoint wrapper, handler and endpoint
    registration, outbound send and start-up.

    Python code mutates the server object, logs, calls out to the agent
    runtime and raises; the embedding threads the server object through a
    small monad whose computations return a value or raise, keep the
    mutations made before a raise, and emit the effects they perform. *)

From stdpp Require Import gmap strings list pretty.
From Stdlib Require Import ZArith.

Set Warnings "-register-all".
Open Scope string_scope.
Open Scope list_scope.

(** ** Values *)

(** JSON data, as [json.loads] builds it and [jsonify] serialises it. *)
Inductive json : Type :=
| JNull
| JBool (b : bool)
| JNum (n : Z)
| JStr (s : string)
| JArr (items : list json)
| JObj (fields : list (string * json)).

(** What a callback hands back: a value the framework's JSON provider can
    serialise, or any other Python object (a [set], an open file, ...),
    known by the name of its type. *)
Inductive pyvalue : Type :=
| PyJson (j : json)
| PyObject (type_name : string).

(** An instance of a subclass of [Exception]; [exc_str] is [str(e)].  The
    system-exiting exceptions that are not [Exception]s ([SystemExit],
    [KeyboardInterrupt], [GeneratorExit]) are not values of this type: no
    [except Exception] clause of the server sees them. *)
Record PyException : Type := mkException {
  exc_type : string;
  exc_str : string
}.

Inductive outcome (A : Type) : Type :=
| Return (a : A)
| Raise (e : PyException).
Arguments Return {A} a.
Arguments Raise {A} e.

Definition returned {A} (o : outcome A) : bool :=
  match o with Return _ => true | Raise _ => false end.


(** A Python callable of one argument, as registered by client code: a
    function of its argument that returns or raises. *)
Abbreviation Callback := (json -> outcome pyvalue).

(** ** Data classes and the collaborators' objects *)

Record AgentMetadata : Type := {
  title : string;
  readme : string
}.

Record ServerConfig : Type := {
  host : string;
  port : Z;
  cors_origins : list string;
  debug : bool
}.

Definition ServerConfig_default : ServerConfig :=
  {| host := "0.0.0.0"; port := 5001;
     cors_origins := ["http://localhost:3000"]; debug := false |}.

(** [fetchai.crypto.Identity]: only the [address] property is read here. *)
Record Identity : Type := {
  address : string
}.

(** The object [parse_message_from_agent] returns. *)
Record AgentMessage : Type := {
  sender : string;
  payload : json
}.

(** The framework's request object, reduced to what the views read:
    [request.get_data()], [request.is_json] and the result of
    [request.get_json()], which raises on a body that does not parse. *)
Record Request : Type := {
  get_data : string;
  is_json : bool;
  get_json : outcome json
}.

(** What a view returns: [jsonify(body)] is status 200, the pair
    [jsonify(body), 500] is status 500. *)
Record Response : Type := {
  status_code : Z;
  body : json
}.

(** ** Effects *)

(** The pieces of an f-string. *)
Inductive fragment : Type :=
| Text (s : string)
| Json (j : json)
| Value (v : pyvalue)
| Strings (l : list string).

Inductive log_level : Type := INFO | ERROR.

(** What a run does that can be observed from outside the server object:
    a [logger] call, or a call of a callback, of the directory or of the
    outbound send, recorded with its arguments as the call is made, or
    the launch of the listener thread. *)
Inductive event : Type :=
| Log (level : log_level) (message : list fragment)
| Call_handler (key : string) (arg : json)
| Call_endpoint (path : string) (arg : json)
| Register_with_agentverse (identity : Identity) (url token agent_title agent_readme : string)
| Send_message_to_agent (identity : Identity) (recipient : string) (payload : json)
| Thread_start.

(** The views the server binds to paths.  [endpoint_wrapper] is a closure
    over the normalised [path] and the [handler] of its
    [register_endpoint] call. *)
Inductive view : Type :=
| View_webhook
| View_health_check
| View_endpoint_wrapper (path : string) (handler : Callback).

(** Modelled from the spec: the web framework's routing table (Flask is
    not under src/), the "mapping from URL path to a callback plus an
    allowed HTTP method set" of the data model.  A rule holds the path and
    the methods as they were passed to [app.route(rule, methods=...)(f)]
    and the view that serves the path; the table keeps the rules in the
    order of the calls. *)
Record Rule : Type := {
  rule : string;
  methods : list string;
  view_func : view
}.

(** ** The server object *)

Record AgentServer : Type := {
  config : ServerConfig;
  metadata : AgentMetadata;
  agent_key : option string;
  agentverse_token : option string;
  url_map : list Rule;
  _got_first_request : bool;
  identity : option Identity;
  message_queue : list AgentMessage;
  response_handlers : gmap string Callback
}.

Definition set_url_map (f : list Rule -> list Rule) (s : AgentServer) : AgentServer :=
  {| config := config s; metadata := metadata s; agent_key := agent_key s;
     agentverse_token := agentverse_token s; url_map := f (url_map s); _got_first_request := _got_first_request s;
     identity := identity s; message_queue := message_queue s;
     response_handlers := response_handlers s |}.

Definition set_identity (i : option Identity) (s : AgentServer) : AgentServer :=
  {| config := config s; metadata := metadata s; agent_key := agent_key s;
     agentverse_token := agentverse_token s; url_map := url_map s; _got_first_request := _got_first_request s;
     identity := i; message_queue := message_queue s;
     response_handlers := response_handlers s |}.

(** [Queue.put] on an unbounded queue: the item goes to the back. *)
Definition queue_put (m : AgentMessage) (s : AgentServer) : AgentServer :=
  {| config := config s; metadata := metadata s; agent_key := agent_key s;
     agentverse_token := agentverse_token s; url_map := url_map s; _got_first_request := _got_first_request s;
     identity := identity s; message_queue := message_queue s ++ [m];
     response_handlers := response_handlers s |}.

Definition set_response_handlers (f : gmap string Callback -> gmap string Callback)
    (s : AgentServer) : AgentServer :=
  {| config := config s; metadata := metadata s; agent_key := agent_key s;
     agentverse_token := agentverse_token s; url_map := url_map s; _got_first_request := _got_first_request s;
     identity := identity s; message_queue := message_queue s;
     response_handlers := f (response_handlers s) |}.

(** The framework's note that the application has handled a request. *)
Definition set_got_first_request (b : bool) (s : AgentServer) : AgentServer :=
  {| config := config s; metadata := metadata s; agent_key := agent_key s;
     agentverse_token := agentverse_token s; url_map := url_map s;
     _got_first_request := b;
     identity := identity s; message_queue := message_queue s;
     response_handlers := response_handlers s |}.

(** ** The monad of server code *)

Record run (A : Type) : Type := mkRun {
  result : outcome A;
  final : AgentServer;
  emitted : list event
}.
Arguments mkRun {A} result final emitted.
Arguments result {A} r.
Arguments final {A} r.
Arguments emitted {A} r.

Definition M (A : Type) : Type := AgentServer -> run A.

Definition ret {A} (a : A) : M A := fun s => mkRun (Return a) s [].

Definition raise {A} (e : PyException) : M A := fun s => mkRun (Raise e) s [].

Definition bind {A B} (m : M A) (k : A -> M B) : M B := fun s =>
  match m s with
  | mkRun (Return a) s1 evs1 =>
      match k a s1 with
      | mkRun o s2 evs2 => mkRun o s2 (evs1 ++ evs2)
      end
  | mkRun (Raise e) s1 evs1 => mkRun (Raise e) s1 evs1
  end.

(** [try: m except Exception as e: h e]. *)
Definition try_except {A} (m : M A) (h : PyException -> M A) : M A := fun s =>
  match m s with
  | mkRun (Return a) s1 evs1 => mkRun (Return a) s1 evs1
  | mkRun (Raise e) s1 evs1 =>
      match h e s1 with
      | mkRun o s2 evs2 => mkRun o s2 (evs1 ++ evs2)
      end
  end.

Definition emit (ev : event) : M unit := fun s => mkRun (Return tt) s [ev].

Definition gets {A} (f : AgentServer -> A) : M A := fun s => mkRun (Return (f s)) s [].

Definition modify (f : AgentServer -> AgentServer) : M unit :=
  fun s => mkRun (Return tt) (f s) [].

(** The result of a call that touches nothing of the server. *)
Definition lift {A} (o : outcome A) : M A := fun s => mkRun o s [].

Definition logger_info (msg : list fragment) : M unit := emit (Log INFO msg).
Definition logger_error (msg : list fragment) : M unit := emit (Log ERROR msg).

#[global] Instance M_ret : MRet M := @ret.
#[global] Instance M_bind : MBind M := fun A B k m => bind m k.

(** ** The collaborators

    Code that is not the repository's: [bytes.decode], and the agent
    runtime's envelope parser, identity creation, directory registration
    and outbound send.  Each either returns or raises. *)
Class AgentRuntime : Type := {
  decode_utf8 : string -> outcome string;
  parse_message_from_agent : string -> outcome AgentMessage;
  Identity_from_seed : string -> Z -> outcome Identity;
  register_with_agentverse :
    Identity -> string -> string -> string -> string -> outcome unit;
  send_message_to_agent : Identity -> string -> json -> outcome unit
}.

(** Modelled from the spec: the framework's [jsonify] (Flask is not under
    src/) "returns the callback's result as JSON"; on an object its JSON
    provider cannot serialise it raises [TypeError]. *)
Definition jsonify (v : pyvalue) : outcome Response :=
  match v with
  | PyJson j => Return {| status_code := 200; body := j |}
  | PyObject t =>
      Raise (mkException "TypeError"
               ("Object of type " +:+ t +:+ " is not JSON serializable"))
  end.

(** [return response, code] *)
Definition with_status (code : Z) (r : Response) : Response :=
  {| status_code := code; body := body r |}.

(** A [dict] literal whose values are strings or [None]. *)
Definition dict (fields : list (string * json)) : pyvalue := PyJson (JObj fields).

(** Decoded text is held as its UTF-8 encoding: a character is a byte
    that is not a continuation byte ([10xxxxxx]), together with the
    continuation bytes that follow it. *)
Definition is_continuation (c : Ascii.ascii) : bool :=
  match c with
  | Ascii.Ascii _ _ _ _ _ _ b6 b7 => b7 && negb b6
  end.


(** [data[:n]]: the first [n] characters. *)
Fixpoint slice_to (n : nat) (s : string) : string :=
  match s with
  | EmptyString => EmptyString
  | String c rest =>
      if is_continuation c then String c (slice_to n rest)
      else match n with
           | 0 => EmptyString
           | S n' => String c (slice_to n' rest)
           end
  end.

(** [path.startswith(p)] *)
Definition startswith (s p : string) : bool := String.prefix p s.

(** Truth value of a [str] or [None]: [None] and the empty string are false. *)
Definition truthy (o : option string) : bool :=
  match o with
  | Some s => negb (String.eqb s "")
  | None => false
  end.

(** [request.get_json() if request.is_json else {}] *)
Definition request_data (request : Request) : outcome json :=
  if is_json request then get_json request else Return (JObj []).

(** [f"http://{self.config.host}:{self.config.port}/api/webhook"] *)
Definition webhook_url (cfg : ServerConfig) : string :=
  "http://" +:+ host cfg +:+ ":" +:+ pretty (port cfg) +:+ "/api/webhook".

(** [methods or ["POST"]]: [None] and the empty list are false. *)
Definition methods_or (methods : option (list string)) (dflt : list string) : list string :=
  match methods with
  | Some (m :: ms) => m :: ms
  | Some [] => dflt
  | None => dflt
  end.

(** The view registered under the name [endpoint_wrapper], if any: the
    first wrapper bound in the table. *)
Definition registered_wrapper (rules : list Rule) : option view :=
  view_func <$>
    List.find (fun r => match view_func r with
                        | View_endpoint_wrapper _ _ => true
                        | _ => false
                        end) rules.

(** The message of the framework's refusal of a setup method after the
    first request. *)
Definition setup_finished_message : string :=
  "The setup method 'route' can no longer be called on the application. It has already handled its first request, any changes will not be applied consistently.
Make sure all imports, decorators, functions, etc. needed to set up the application are done before running it.".

Section Server.

Context `{RT : AgentRuntime}.

(** *** [_init_routes]: the webhook view *)
Definition webhook (request : Request) : M Response :=
  try_except
    (data ← lift (decode_utf8 (get_data request));
     logger_info [Text "Received webhook data: "; Text (slice_to 100 data); Text "..."] ;;
     message ← lift (parse_message_from_agent data);
     logger_info [Text "Message from "; Text (sender message); Text ": ";
                  Json (payload message)] ;;
     modify (queue_put message) ;;
     handlers ← gets response_handlers;
     match handlers !! sender message with
     | Some handler =>
         try_except
           (emit (Call_handler (sender message) (payload message)) ;;
            result ← lift (handler (payload message));
            logger_info [Text "Handler for "; Text (sender message);
                         Text " executed: "; Value result])
           (fun e => logger_error [Text "Error in message handler: "; Text (exc_str e)])
     | None => ret tt
     end ;;
     lift (jsonify (dict [("status", JStr "success")])))
    (fun e =>
       logger_error [Text "Webhook error: "; Text (exc_str e)] ;;
       r ← lift (jsonify (dict [("error", JStr (exc_str e))]));
       ret (with_status 500 r)).

(** *** [_init_routes]: the health view *)
Definition health_check : M Response :=
  self_identity ← gets identity;
  let status := match self_identity with Some _ => "healthy" | None => "initializing" end in
  lift (jsonify (dict
    [("status", JStr status);
     ("agent_address",
       match self_identity with Some i => JStr (address i) | None => JNull end)])).

(** *** [_init_agent]

    Past the guard both credentials are strings that are not empty. *)
Definition _init_agent : M bool :=
  try_except
    (key ← gets agent_key;
     token ← gets agentverse_token;
     (if negb (truthy key) || negb (truthy token)
      then raise (mkException "ValueError" "Missing required API keys")
      else ret tt) ;;
     i ← lift (Identity_from_seed (default "" key) 0);
     modify (set_identity (Some i)) ;;
     logger_info [Text "Created agent identity with address: "; Text (address i)] ;;
     cfg ← gets config;
     let webhook_url := webhook_url cfg in
     logger_info [Text "Registering agent with webhook URL: "; Text webhook_url] ;;
     meta ← gets metadata;
     emit (Register_with_agentverse i webhook_url (default "" token) (title meta) (readme meta)) ;;
     lift (register_with_agentverse i webhook_url (default "" token) (title meta) (readme meta)) ;;
     logger_info [Text "Agent '"; Text (title meta); Text "' registered successfully"] ;;
     ret true)
    (fun e =>
       logger_error [Text "Agent initialization failed: "; Text (exc_str e)] ;;
       raise e).

(** *** [register_handler] *)
Definition register_handler (agent_address : string) (handler : Callback) : M unit :=
  modify (set_response_handlers (<[agent_address := handler]>)) ;;
  logger_info [Text "Registered handler for agent: "; Text agent_address].

(** *** [register_endpoint] and its [endpoint_wrapper] *)
Definition endpoint_wrapper (path : string) (handler : Callback) (request : Request)
    : M Response :=
  try_except
    (data ← lift (request_data request);
     logger_info [Text "Received request to "; Text path; Text ": "; Json data] ;;
     emit (Call_endpoint path data) ;;
     result ← lift (handler data);
     lift (jsonify result))
    (fun e =>
       logger_error [Text "Endpoint error: "; Text (exc_str e)] ;;
       r ← lift (jsonify (dict [("error", JStr (exc_str e))]));
       ret (with_status 500 r)).

(** [self.app.route(path, methods=methods)(endpoint_wrapper)], as the
    framework carries it out (Flask is not under src/).  Once the
    application has handled a request, setup methods raise and bind
    nothing.  Before that the rule is added under the name of the view
    function, and every wrapper of [register_endpoint] has the one name
    [endpoint_wrapper]: when a wrapper is already registered under it,
    the new rule is served by that earlier wrapper and the call raises;
    otherwise the new wrapper is registered and serves the rule. *)
Definition app_route_endpoint_wrapper (path : string) (methods : list string)
    (handler : Callback) : M unit :=
  serving ← gets _got_first_request;
  if serving : bool
  then raise (mkException "AssertionError" setup_finished_message)
  else
    rules ← gets url_map;
    match registered_wrapper rules with
    | Some earlier =>
        modify (set_url_map (fun m =>
          m ++ [{| rule := path; methods := methods; view_func := earlier |}])) ;;
        raise (mkException "AssertionError"
                 "View function mapping is overwriting an existing endpoint function: endpoint_wrapper")
    | None =>
        modify (set_url_map (fun m =>
          m ++ [{| rule := path; methods := methods;
                   view_func := View_endpoint_wrapper path handler |}]))
    end.

Definition register_endpoint (path : string) (handler : Callback)
    (methods : option (list string)) : M unit :=
  let path := if negb (startswith path "/") then "/api/" +:+ path else path in
  let methods := methods_or methods ["POST"] in
  logger_info [Text "Registering custom endpoint: "; Text path;
               Text " (methods: "; Strings methods; Text ")"] ;;
  app_route_endpoint_wrapper path methods handler.

(** *** [send_message] *)
Definition send_message (recipient : string) (payload : json) : M bool :=
  self_identity ← gets identity;
  match self_identity with
  | None =>
      logger_error [Text "Cannot send message: Agent not initialized"] ;;
      ret false
  | Some i =>
      try_except
        (emit (Send_message_to_agent i recipient payload) ;;
         lift (send_message_to_agent i recipient payload) ;;
         logger_info [Text "Message sent to "; Text recipient; Text ": "; Json payload] ;;
         ret true)
        (fun e =>
           logger_error [Text "Failed to send message: "; Text (exc_str e)] ;;
           ret false)
  end.

(** *** [start]

    The listener thread's body ([app.run]) runs concurrently and is not
    part of the model; launching the thread is the [Thread_start] effect,
    and the thread object [start] returns is not represented. *)
Definition start : M unit :=
  _init_agent ;;
  emit Thread_start ;;
  cfg ← gets config;
  logger_info [Text "Server started on "; Text (host cfg); Text ":"; Text (pretty (port cfg))].

(** *** [__init__] with [_init_routes] *)
Definition AgentServer_init (config : ServerConfig) (metadata : AgentMetadata)
    (agent_key agentverse_token : option string) : AgentServer :=
  {| config := config; metadata := metadata;
     agent_key := agent_key; agentverse_token := agentverse_token;
     url_map :=
       [ {| rule := "/api/webhook"; methods := ["POST"]; view_func := View_webhook |};
         {| rule := "/api/health"; methods := ["GET"]; view_func := View_health_check |} ];
     _got_first_request := false;
     identity := None;
     message_queue := [];
     response_handlers := ∅ |}.

(** What the framework runs when a request is routed to a view. *)
Definition run_view (v : view) (request : Request) : M Response :=
  match v with
  | View_webhook => webhook request
  | View_health_check => health_check
  | View_endpoint_wrapper path handler => endpoint_wrapper path handler request
  end.

(** The framework handling a request routed to a view: it notes that the
    application has handled a request, then runs the view. *)
Definition full_dispatch_request (v : view) (request : Request) : M Response :=
  modify (set_got_first_request true) ;;
  run_view v request.

End Server.

(** ** The dispatch surface as a whole *)

Section Surface.

Context `{RT : AgentRuntime}.

(** Lines 92 and 95 of [webhook] together: the raw body as a message. *)
Definition decode_envelope (request : Request) : outcome AgentMessage :=
  match decode_utf8 (get_data request) with
  | Return data => parse_message_from_agent data
  | Raise e => Raise e
  end.

(** A GET request: no body and no JSON content type. *)
Definition get_request : Request :=
  {| get_data := ""; is_json := false;
     get_json := Raise (mkException "UnsupportedMediaType" "415 Unsupported Media Type") |}.


(** The operations a client of the server object or of its HTTP surface
    can perform; a request reaches its view through the framework. *)
Inductive op : Type :=
| Op_webhook (request : Request)
| Op_health_check
| Op_endpoint (path : string) (handler : Callback) (request : Request)
| Op_register_handler (agent_address : string) (handler : Callback)
| Op_register_endpoint (path : string) (handler : Callback) (methods : option (list string))
| Op_send_message (recipient : string) (payload : json)
| Op_start.

Definition exec (o : op) (s : AgentServer) : AgentServer :=
  match o with
  | Op_webhook request => final (full_dispatch_request View_webhook request s)
  | Op_health_check => final (full_dispatch_request View_health_check get_request s)
  | Op_endpoint path handler request =>
      final (full_dispatch_request (View_endpoint_wrapper path handler) request s)
  | Op_register_handler a h => final (register_handler a h s)
  | Op_register_endpoint p h ms => final (register_endpoint p h ms s)
  | Op_send_message r p => final (send_message r p s)
  | Op_start => final (start s)
  end.

Definition exec_all (ops : list op) (s : AgentServer) : AgentServer :=
  foldl (fun s o => exec o s) s ops.

End Surface.

(** ** Reading traces and responses *)

(** The handler invocations among the effects of a run, in order. *)
Definition handler_calls (evs : list event) : list (string * json) :=
  omap (fun ev => match ev with Call_handler k a => Some (k, a) | _ => None end) evs.

Definition endpoint_calls (evs : list event) : list (string * json) :=
  omap (fun ev => match ev with Call_endpoint p a => Some (p, a) | _ => None end) evs.

Definition outbound_sends (evs : list event) : list (Identity * string * json) :=
  omap (fun ev => match ev with Send_message_to_agent i r p => Some (i, r, p) | _ => None end) evs.

Definition thread_starts (evs : list event) : nat :=
  length (omap (fun ev => match ev with Thread_start => Some tt | _ => None end) evs).

Definition error_logs (evs : list event) : list (list fragment) :=
  omap (fun ev => match ev with Log ERROR m => Some m | _ => None end) evs.

(** What [webhook] emits from the handler lookup on. *)
Definition handler_events (s : AgentServer) (message : AgentMessage) : list event :=
  match response_handlers s !! sender message with
  | None => []
  | Some handler =>
      Call_handler (sender message) (payload message) ::
      match handler (payload message) with
      | Return v =>
          [Log INFO [Text "Handler for "; Text (sender message);
                     Text " executed: "; Value v]]
      | Raise e => [Log ERROR [Text "Error in message handler: "; Text (exc_str e)]]
      end
  end.

(** A field of a JSON object. *)
Definition json_get (key : string) (j : json) : option json :=
  match j with
  | JObj fields => snd <$> List.find (fun kv => String.eqb (fst kv) key) fields
  | _ => None
  end.

Definition success_response : Response :=
  {| status_code := 200; body := JObj [("status", JStr "success")] |}.

Definition error_response (msg : string) : Response :=
  {| status_code := 500; body := JObj [("error", JStr msg)] |}.

(** ** Sample collaborators, to run the model on concrete requests *)

Module Demo.

(** A toy envelope: the sender, a bar, the payload text. *)
Definition parse (data : string) : outcome AgentMessage :=
  match String.index 0 "|" data with
  | Some n =>
      Return {| sender := String.substring 0 n data;
                payload := JStr (String.substring (S n) (String.length data - S n) data) |}
  | None => Raise (mkException "ValueError" "Invalid envelope")
  end.

#[local] Instance runtime : AgentRuntime := {|
  decode_utf8 data := Return data;
  parse_message_from_agent := parse;
  Identity_from_seed seed _ := Return {| address := "agent1q" +:+ seed |};
  register_with_agentverse _ _ token _ _ :=
    if String.eqb token "revoked"
    then Raise (mkException "HTTPError" "401 Unauthorized")
    else Return tt;
  send_message_to_agent _ recipient _ :=
    if String.eqb recipient "unreachable"
    then Raise (mkException "ConnectionError" "connection refused")
    else Return tt
|}.

Definition meta : AgentMetadata := {| title := "Tavily Search Agent"; readme := "<description/>" |}.

Definition fresh : AgentServer :=
  AgentServer_init ServerConfig_default meta (Some "seed") (Some "token").

Definition post (data : string) : Request :=
  {| get_data := data; is_json := false; get_json := Raise (mkException "BadRequest" "400 Bad Request") |}.

Definition post_json (j : json) : Request :=
  {| get_data := ""; is_json := true; get_json := Return j |}.

(** A request of JSON content type whose body does not parse. *)
Definition post_malformed : Request :=
  {| get_data := "{bad"; is_json := true;
     get_json := Raise (mkException "BadRequest" "400 Bad Request") |}.

Definition echo : Callback := fun data => Return (PyJson data).

Definition failing : Callback := fun _ => Raise (mkException "RuntimeError" "boom").

Definition with_handler (a : string) (h : Callback) (s : AgentServer) : AgentServer :=
  set_response_handlers (<[a := h]>) s.

End Demo.

(** ** Python values in the scripts *)

(** The truth value of a JSON value: [None], [False], zero and the empty
    string, list and dict are false. *)
Definition json_truthy (j : json) : bool :=
  match j with
  | JNull => false
  | JBool b => b
  | JNum n => negb (n =? 0)%Z
  | JStr s => negb (String.eqb s "")
  | JArr [] => false
  | JArr (_ :: _) => true
  | JObj [] => false
  | JObj (_ :: _) => true
  end.

(** The name of the Python type of a JSON value. *)
Definition type_name_of (j : json) : string :=
  match j with
  | JNull => "NoneType"
  | JBool _ => "bool"
  | JNum _ => "int"
  | JStr _ => "str"
  | JArr _ => "list"
  | JObj _ => "dict"
  end.

(** [data.get(key)]: a [dict] answers with the value or with [None]; no
    other JSON value has a [get]. *)
Definition py_get (data : json) (key : string) : outcome json :=
  match data with
  | JObj _ => Return (default JNull (json_get key data))
  | _ =>
      Raise (mkException "AttributeError"
               ("'" +:+ type_name_of data +:+ "' object has no attribute 'get'"))
  end.

(** ** [tavily_agent.py] *)

Module tavily_agent.

(** The four module globals read from the environment. *)
Record Environment : Type := {
  OPENAI_API_KEY : option string;
  TAVILY_API_KEY : option string;
  AGENT_KEY : option string;
  AGENTVERSE_TOKEN : option string
}.

(** The LangChain side: [TavilySearchAgent()] builds the model, the tool
    and the chain from the two API keys, and [agent_chain.run] answers a
    query with text; each returns or raises. *)
Class LangChain : Type := {
  TavilySearchAgent_init : string -> string -> outcome unit;
  agent_chain_run : json -> outcome string
}.

(** How [main] ends: it returns, it raises, or it reaches the keep-alive
    loop of its last lines, which is not modelled further. *)
Inductive main_end : Type :=
| Main_returned
| Main_raised (e : PyException)
| Main_serving.

Record main_run : Type := {
  ended : main_end;
  printed : list string;
  served : option (run unit)
}.

Definition metadata : AgentMetadata :=
  {| title := "Tavily Search Agent";
     readme := "
        ![tag:innovationlab](https://img.shields.io/badge/innovation--lab-3D8BD3)
            <description>An agent that performs web searches using the Tavily API and returns comprehensive results.</description>
            <use_cases>
                <use_case>Find up-to-date information about any topic</use_case>
                <use_case>Research facts and get summarized information</use_case>
                <use_case>Answer questions that require current web data</use_case>
            </use_cases>
            <payload_requirements>
                <description>Send your search query</description>
                <payload>
                    <requirement>
                        <parameter>query</parameter>
                        <description>The search query you want to run</description>
                    </requirement>
                </payload>
            </payload_requirements>
        " |}.

(** [ServerConfig(port=5002)] *)
Definition config : ServerConfig :=
  {| host := host ServerConfig_default; port := 5002;
     cors_origins := cors_origins ServerConfig_default;
     debug := debug ServerConfig_default |}.

(** The [missing] list of [main]. *)
Definition missing (env : Environment) : list string :=
  (if negb (truthy (OPENAI_API_KEY env)) then ["OPENAI_API_KEY"] else []) ++
  (if negb (truthy (TAVILY_API_KEY env)) then ["TAVILY_API_KEY"] else []) ++
  (if negb (truthy (AGENT_KEY env)) then ["AGENT_KEY"] else []) ++
  (if negb (truthy (AGENTVERSE_TOKEN env)) then ["AGENTVERSE_TOKEN"] else []).

Section Agent.

Context `{RT : AgentRuntime} `{LC : LangChain}.

(** [TavilySearchAgent.search] *)
Definition search (query : json) : json :=
  match agent_chain_run (JObj [("input", query)]) with
  | Return result => JObj [("status", JStr "success"); ("result", JStr result)]
  | Raise e => JObj [("status", JStr "error"); ("error", JStr (exc_str e))]
  end.

(** [handle_search], the callback of the search endpoint *)
Definition handle_search : Callback := fun data =>
  match py_get data "query" with
  | Raise e => Raise e
  | Return query =>
      if negb (json_truthy query)
      then Return (dict [("error", JStr "Missing search query")])
      else Return (PyJson (search query))
  end.

(** [main], up to the keep-alive loop *)
Definition main (env : Environment) : main_run :=
  if negb (forallb truthy [OPENAI_API_KEY env; TAVILY_API_KEY env;
                           AGENT_KEY env; AGENTVERSE_TOKEN env])
  then
    {| ended := Main_returned;
       printed := ["Missing required API keys: " +:+ String.concat ", " (missing env)];
       served := None |}
  else
    match TavilySearchAgent_init (default "" (OPENAI_API_KEY env))
            (default "" (TAVILY_API_KEY env)) with
    | Raise e => {| ended := Main_raised e; printed := []; served := None |}
    | Return _ =>
        let server :=
          AgentServer_init config metadata (AGENT_KEY env) (AGENTVERSE_TOKEN env) in
        let r := (register_endpoint "search" handle_search None ;; start) server in
        match result r with
        | Raise e => {| ended := Main_raised e; printed := []; served := Some r |}
        | Return _ =>
            {| ended := Main_serving;
               printed :=
                 ["Tavily Search Agent running at http://localhost:" +:+ pretty (port config);
                  "Press Ctrl+C to exit"];
               served := Some r |}
        end
    end.

End Agent.

End tavily_agent.

(** ** [test_client.py] *)

Module test_client.

(** What [requests.post] hands back, reduced to what the script reads:
    [status_code], [text] and the result of [json()]. *)
Record HttpResponse : Type := {
  response_status_code : Z;
  response_text : string;
  response_json : outcome json
}.

(** [requests.post(url, json=...)], with the headers of the script. *)
Class Requests : Type := {
  requests_post : string -> json -> outcome HttpResponse
}.

Inductive Method : Type := api | agentverse.

(** The parsed command line. *)
Record Args : Type := {
  query : string;
  method : Method;
  agent_address : option string
}.

(** What the script prints: a line of text, or [json.dumps] of a value. *)
Inductive output : Type :=
| Print (text : string)
| Print_json (value : json).

Definition error_dict (msg : string) : json :=
  JObj [("status", JStr "error"); ("error", JStr msg)].

Section Client.

Context `{RT : AgentRuntime} `{RQ : Requests}.

(** [send_direct_api_request] *)
Definition send_direct_api_request (query : string) : json :=
  match requests_post "http://localhost:5002/api/search" (JObj [("query", JStr query)]) with
  | Raise e => error_dict (exc_str e)
  | Return response =>
      if (response_status_code response =? 200)%Z
      then
        match response_json response with
        | Return j => j
        | Raise e => error_dict (exc_str e)
        end
      else
        error_dict ("HTTP " +:+ pretty (response_status_code response) +:+ ": "
                    +:+ response_text response)
  end.

(** [send_agentverse_message], with the two globals it reads; the second
    component is the outbound sends it makes. *)
Definition send_agentverse_message (CLIENT_KEY AGENT_ADDRESS : option string)
    (query : string) : json * list event :=
  if negb (truthy CLIENT_KEY)
  then (error_dict "Missing CLIENT_KEY environment variable", [])
  else if negb (truthy AGENT_ADDRESS)
  then (error_dict "Missing agent address", [])
  else
    match Identity_from_seed (default "" CLIENT_KEY) 0 with
    | Raise e => (error_dict (exc_str e), [])
    | Return client_identity =>
        let payload := JObj [("query", JStr query)] in
        let sent :=
          [Send_message_to_agent client_identity (default "" AGENT_ADDRESS) payload] in
        match send_message_to_agent client_identity (default "" AGENT_ADDRESS) payload with
        | Raise e => (error_dict (exc_str e), sent)
        | Return _ =>
            (JObj [("status", JStr "success");
                   ("message",
                     JStr "Message sent to agent. Check your webhook for response.")],
             sent)
        end
    end.

(** [main]: what it prints and the outbound sends it makes. *)
Definition main (CLIENT_KEY : option string) (args : Args) : list output * list event :=
  let AGENT_ADDRESS := agent_address args in
  match method args with
  | agentverse =>
      if negb (truthy AGENT_ADDRESS)
      then ([Print "Error: --agent-address is required when using the agentverse method"], [])
      else
        let '(result, sent) := send_agentverse_message CLIENT_KEY AGENT_ADDRESS (query args) in
        ([Print_json result], sent)
  | api => ([Print_json (send_direct_api_request (query args))], [])
  end.

End Client.

End test_client.

(** The directory registrations among the effects of a run, in order. *)
Definition registrations (evs : list event)
    : list (Identity * string * string * string * string) :=
  omap (fun ev => match ev with
                  | Register_with_agentverse i url token t r => Some (i, url, token, t, r)
                  | _ => None
                  end) evs.

(** ** More sample collaborators *)

Module Samples.

(** A runtime whose identity creation rejects every seed. *)
#[local] Instance seedless_runtime : AgentRuntime := {|
  decode_utf8 := decode_utf8 (AgentRuntime := Demo.runtime);
  parse_message_from_agent := parse_message_from_agent (AgentRuntime := Demo.runtime);
  Identity_from_seed _ _ := Raise (mkException "ValueError" "invalid seed");
  register_with_agentverse := register_with_agentverse (AgentRuntime := Demo.runtime);
  send_message_to_agent := send_message_to_agent (AgentRuntime := Demo.runtime)
|}.

(** A chain that answers every query but one. *)
#[local] Instance chain : tavily_agent.LangChain := {|
  tavily_agent.TavilySearchAgent_init _ _ := Return tt;
  tavily_agent.agent_chain_run input :=
    match json_get "input" input with
    | Some (JStr "offline") => Raise (mkException "TimeoutError" "search timed out")
    | _ => Return "three results"
    end
|}.

(** A service that answers 200 with the posted body, and 503 when asked
    for ["offline"]. *)
#[local] Instance http : test_client.Requests := {|
  test_client.requests_post _ posted :=
    match json_get "query" posted with
    | Some (JStr "offline") =>
        Return {| test_client.response_status_code := 503;
                  test_client.response_text := "Service Unavailable";
                  test_client.response_json :=
                    Raise (mkException "JSONDecodeError" "Expecting value") |}
    | _ =>
        Return {| test_client.response_status_code := 200;
                  test_client.response_text := "";
                  test_client.response_json := Return posted |}
    end
|}.

Definition env : tavily_agent.Environment :=
  {| tavily_agent.OPENAI_API_KEY := Some "sk-openai";
     tavily_agent.TAVILY_API_KEY := Some "tvly";
     tavily_agent.AGENT_KEY := Some "seed";
     tavily_agent.AGENTVERSE_TOKEN := Some "token" |}.

Definition started : AgentServer :=
  set_identity (Some {| address := "agent1qseed" |}) Demo.fresh.

End Samples.

(** ** Proof support *)

Ltac py_unfold :=
  unfold webhook, health_check, _init_agent, register_handler, endpoint_wrapper,
    register_endpoint, send_message, start,
    try_except, mbind, M_bind, bind, mret, M_ret, ret, raise, lift,
    logger_info, logger_error, emit, gets, modify.

(** ** The webhook view *)

Section Webhook.

Context `{RT : AgentRuntime}.

Lemma decode_envelope_Return request message :
  decode_envelope request = Return message ->
  exists data, decode_utf8 (get_data request) = Return data
               /\ parse_message_from_agent data = Return message.
Proof.
  unfold decode_envelope.
  destruct (decode_utf8 (get_data request)) as [data|e] eqn:Hd; [|discriminate].
  intros Hp. by exists data.
Qed.

Lemma decode_envelope_Raise request e :
  decode_envelope request = Raise e ->
  decode_utf8 (get_data request) = Raise e
  \/ exists data, decode_utf8 (get_data request) = Return data
                  /\ parse_message_from_agent data = Raise e.
Proof.
  unfold decode_envelope.
  destruct (decode_utf8 (get_data request)) as [data|e'] eqn:Hd.
  - intros Hp. right. by exists data.
  - intros [= ->]. by left.
Qed.

(** The whole run of the webhook on a body that decodes. *)
Lemma webhook_decoded s request data message :
  decode_utf8 (get_data request) = Return data ->
  parse_message_from_agent data = Return message ->
  webhook request s =
    mkRun (Return success_response) (queue_put message s)
      (Log INFO [Text "Received webhook data: "; Text (slice_to 100 data); Text "..."]
       :: Log INFO [Text "Message from "; Text (sender message); Text ": ";
                    Json (payload message)]
       :: handler_events s message).
Proof.
  intros Hd Hp. unfold handler_events. py_unfold. rewrite Hd, Hp. cbn.
  destruct (response_handlers s !! sender message) as [h|]; cbn; [|done].
  by destruct (h (payload message)).
Qed.

(** The whole run on a body that is not UTF-8. *)
Lemma webhook_undecodable s request e :
  decode_utf8 (get_data request) = Raise e ->
  webhook request s =
    mkRun (Return (error_response (exc_str e))) s
      [Log ERROR [Text "Webhook error: "; Text (exc_str e)]].
Proof. intros Hd. py_unfold. by rewrite Hd. Qed.

(** The whole run on a text the envelope parser rejects. *)
Lemma webhook_unparsable s request data e :
  decode_utf8 (get_data request) = Return data ->
  parse_message_from_agent data = Raise e ->
  webhook request s =
    mkRun (Return (error_response (exc_str e))) s
      [Log INFO [Text "Received webhook data: "; Text (slice_to 100 data); Text "..."];
       Log ERROR [Text "Webhook error: "; Text (exc_str e)]].
Proof. intros Hd Hp. py_unfold. by rewrite Hd, Hp. Qed.

Lemma webhook_failed s request e :
  decode_envelope request = Raise e ->
  result (webhook request s) = Return (error_response (exc_str e))
  /\ final (webhook request s) = s
  /\ handler_calls (emitted (webhook request s)) = [].
Proof.
  intros [Hd|(data & Hd & Hp)]%decode_envelope_Raise.
  - by rewrite (webhook_undecodable _ _ _ Hd).
  - by rewrite (webhook_unparsable _ _ _ _ Hd Hp).
Qed.

Lemma handler_calls_handler_events s message :
  handler_calls (handler_events s message) =
    match response_handlers s !! sender message with
    | Some _ => [(sender message, payload message)]
    | None => []
    end.
Proof.
  unfold handler_events.
  destruct (response_handlers s !! sender message) as [h|]; [|done].
  by destruct (h (payload message)).
Qed.

End Webhook.

(** ** Handler registration *)

Lemma register_handler_run agent_address handler s :
  register_handler agent_address handler s =
    mkRun (Return tt) (set_response_handlers (<[agent_address := handler]>) s)
      [Log INFO [Text "Registered handler for agent: "; Text agent_address]].
Proof. reflexivity. Qed.

(** The last registration for an address wins, and the other addresses
    keep their handlers. *)
Lemma register_handler_lookup agent_address handler s a :
  response_handlers (final (register_handler agent_address handler s)) !! a =
    if decide (agent_address = a) then Some handler else response_handlers s !! a.
Proof.
  rewrite register_handler_run. apply lookup_insert.
Qed.

(** ** Claims about the webhook *)

(** C1.  A webhook request whose body decodes is answered with HTTP 200
    and [{"status": "success"}], whatever the sender's handler does; when
    that handler raises, its exception is logged as an error, the answer
    is the same and nothing is raised to the framework. *)
Theorem webhook_reports_success `{RT : AgentRuntime}
    (s : AgentServer) (request : Request) (message : AgentMessage) :
  decode_envelope request = Return message ->
  result (webhook request s) =
    Return {| status_code := 200; body := JObj [("status", JStr "success")] |}
  /\ forall handler e,
       response_handlers s !! sender message = Some handler ->
       handler (payload message) = Raise e ->
       error_logs (emitted (webhook request s)) =
         [[Text "Error in message handler: "; Text (exc_str e)]].
Proof.
  intros (data & Hd & Hp)%decode_envelope_Return.
  rewrite (webhook_decoded _ _ _ _ Hd Hp). split; [done|].
  intros handler e Hh He. cbn. unfold handler_events. by rewrite Hh, He.
Qed.

Lemma webhook_reports_success_witness :
  result (webhook (RT := Demo.runtime) (Demo.post "agent1|hello")
            (Demo.with_handler "agent1" Demo.failing Demo.fresh)) =
    Return {| status_code := 200; body := JObj [("status", JStr "success")] |}
  /\ error_logs (emitted (webhook (RT := Demo.runtime) (Demo.post "agent1|hello")
                   (Demo.with_handler "agent1" Demo.failing Demo.fresh))) =
       [[Text "Error in message handler: "; Text "boom"]].
Proof.
  destruct (webhook_reports_success (RT := Demo.runtime)
              (Demo.with_handler "agent1" Demo.failing Demo.fresh)
              (Demo.post "agent1|hello")
              {| sender := "agent1"; payload := JStr "hello" |} eq_refl) as [H1 H2].
  split; [exact H1|].
  exact (H2 Demo.failing (mkException "RuntimeError" "boom") eq_refl eq_refl).
Defined.




(** C6.  With a handler registered for ["agent1"], a valid envelope from
    ["agent1"] is answered with [{"status": "success"}], and the run
    invokes a handler exactly once: the one looked up under ["agent1"],
    on the decoded payload, whose outcome is what the run logs.  The
    lookup is by the sender's exact string: handlers registered under
    other addresses leave it unchanged. *)
Theorem webhook_invokes_registered_handler `{RT : AgentRuntime}
    (s : AgentServer) (request : Request) (message : AgentMessage) (handler : Callback) :
  response_handlers s !! "agent1" = Some handler ->
  decode_envelope request = Return message ->
  sender message = "agent1" ->
  result (webhook request s) = Return success_response
  /\ handler_calls (emitted (webhook request s)) = [("agent1", payload message)]
  /\ (forall v, handler (payload message) = Return v ->
        Log INFO [Text "Handler for "; Text "agent1"; Text " executed: "; Value v]
          ∈ emitted (webhook request s))
  /\ (forall other h, other <> "agent1" ->
        result (webhook request (final (register_handler other h s))) = Return success_response
        /\ handler_calls (emitted (webhook request (final (register_handler other h s))))
           = [("agent1", payload message)]
        /\ response_handlers (final (register_handler other h s)) !! "agent1" = Some handler).
Proof.
  intros Hh (data & Hd & Hp)%decode_envelope_Return Hs.
  rewrite !(webhook_decoded _ _ _ _ Hd Hp). cbn.
  rewrite !handler_calls_handler_events, Hs, Hh.
  split_and!; [done|done| |].
  - intros v Hv. unfold handler_events. rewrite Hs, Hh, Hv. set_solver.
  - intros other h Hne. rewrite !(webhook_decoded _ _ _ _ Hd Hp).
    change (emitted (mkRun ?r ?f ?evs)) with evs.
    change (handler_calls (?a :: ?b :: ?l)) with (handler_calls l).
    rewrite handler_calls_handler_events, Hs, !register_handler_lookup.
    rewrite decide_False by done. by rewrite Hh.
Qed.

Lemma webhook_invokes_registered_handler_witness :
  result (webhook (RT := Demo.runtime) (Demo.post "agent1|hello")
            (Demo.with_handler "agent1" Demo.echo Demo.fresh)) = Return success_response
  /\ handler_calls (emitted (webhook (RT := Demo.runtime) (Demo.post "agent1|hello")
                      (Demo.with_handler "agent1" Demo.echo Demo.fresh)))
     = [("agent1", JStr "hello")].
Proof.
  destruct (webhook_invokes_registered_handler (RT := Demo.runtime)
              (Demo.with_handler "agent1" Demo.echo Demo.fresh)
              (Demo.post "agent1|hello")
              {| sender := "agent1"; payload := JStr "hello" |} Demo.echo
              eq_refl eq_refl eq_refl) as (H1 & H2 & _).
  split; [exact H1 | exact H2].
Defined.

(** ** The health view *)

Lemma health_check_run s :
  health_check s =
    mkRun
      (Return {| status_code := 200;
                 body := JObj
                   [("status",
                      JStr match identity s with Some _ => "healthy" | None => "initializing" end);
                    ("agent_address",
                      match identity s with Some i => JStr (address i) | None => JNull end)] |})
      s [].
Proof. reflexivity. Qed.

(** C3.  The health view answers [{"status": "initializing",
    "agent_address": null}] while the server has no identity, and
    [{"status": "healthy", "agent_address": <address>}] once it has one;
    in every answer the status is "healthy" exactly when the address is
    not null. *)
Theorem health_check_reports_identity (s : AgentServer) :
  (identity s = None ->
     result (health_check s) =
       Return {| status_code := 200;
                 body := JObj [("status", JStr "initializing"); ("agent_address", JNull)] |})
  /\ (forall i, identity s = Some i ->
        result (health_check s) =
          Return {| status_code := 200;
                    body := JObj [("status", JStr "healthy");
                                  ("agent_address", JStr (address i))] |})
  /\ (exists r, result (health_check s) = Return r
        /\ (json_get "status" (body r) = Some (JStr "healthy")
            <-> exists a, json_get "agent_address" (body r) = Some a /\ a <> JNull)).
Proof.
  rewrite health_check_run. cbn. split_and!.
  - by intros ->.
  - by intros i ->.
  - eexists. split; [done|]. cbn.
    destruct (identity s) as [i|]; split.
    + intros _. by exists (JStr (address i)).
    + done.
    + discriminate.
    + by intros (a & [= <-] & Ha).
Qed.

Lemma health_check_reports_identity_witness :
  result (health_check Demo.fresh) =
    Return {| status_code := 200;
              body := JObj [("status", JStr "initializing"); ("agent_address", JNull)] |}
  /\ result (health_check (set_identity (Some {| address := "agent1qseed" |}) Demo.fresh)) =
       Return {| status_code := 200;
                 body := JObj [("status", JStr "healthy");
                               ("agent_address", JStr "agent1qseed")] |}.
Proof.
  split.
  - exact (proj1 (health_check_reports_identity Demo.fresh) eq_refl).
  - exact (proj1 (proj2 (health_check_reports_identity
             (set_identity (Some {| address := "agent1qseed" |}) Demo.fresh)))
             {| address := "agent1qseed" |} eq_refl).
Defined.

(** ** Outbound send *)

Section Send.

Context `{RT : AgentRuntime}.

Lemma send_message_uninitialised s recipient payload :
  identity s = None ->
  send_message recipient payload s =
    mkRun (Return false) s [Log ERROR [Text "Cannot send message: Agent not initialized"]].
Proof. intros H. py_unfold. by rewrite H. Qed.

Lemma send_message_initialised s i recipient payload :
  identity s = Some i ->
  send_message recipient payload s =
    mkRun
      (Return (returned (send_message_to_agent i recipient payload)))
      s
      (Send_message_to_agent i recipient payload ::
       match send_message_to_agent i recipient payload with
       | Return _ => [Log INFO [Text "Message sent to "; Text recipient; Text ": "; Json payload]]
       | Raise e => [Log ERROR [Text "Failed to send message: "; Text (exc_str e)]]
       end).
Proof.
  intros H. py_unfold. rewrite H. cbn.
  by destruct (send_message_to_agent i recipient payload).
Qed.

End Send.

(** ** Custom endpoints *)


(** The three runs of [register_endpoint]: the first wrapper on an
    application that has handled no request ... *)
Lemma register_endpoint_run path handler ms s :
  _got_first_request s = false ->
  registered_wrapper (url_map s) = None ->
  register_endpoint path handler ms s =
    let bound := if startswith path "/" then path else "/api/" +:+ path in
    mkRun (Return tt)
      (set_url_map (fun m => m ++
         [{| rule := bound; methods := methods_or ms ["POST"];
             view_func := View_endpoint_wrapper bound handler |}]) s)
      [Log INFO [Text "Registering custom endpoint: "; Text bound;
                 Text " (methods: "; Strings (methods_or ms ["POST"]); Text ")"]].
Proof.
  intros Hflag Hnone. unfold register_endpoint, app_route_endpoint_wrapper.
  py_unfold. rewrite Hflag, Hnone. by destruct (startswith path "/").
Qed.

(** ... a further wrapper on such an application ... *)
Lemma register_endpoint_again path handler ms s earlier :
  _got_first_request s = false ->
  registered_wrapper (url_map s) = Some earlier ->
  register_endpoint path handler ms s =
    let bound := if startswith path "/" then path else "/api/" +:+ path in
    mkRun
      (Raise (mkException "AssertionError"
                "View function mapping is overwriting an existing endpoint function: endpoint_wrapper"))
      (set_url_map (fun m => m ++
         [{| rule := bound; methods := methods_or ms ["POST"];
             view_func := earlier |}]) s)
      [Log INFO [Text "Registering custom endpoint: "; Text bound;
                 Text " (methods: "; Strings (methods_or ms ["POST"]); Text ")"]].
Proof.
  intros Hflag Hsome. unfold register_endpoint, app_route_endpoint_wrapper.
  py_unfold. rewrite Hflag, Hsome. by destruct (startswith path "/").
Qed.

(** ... and any call once the application has handled a request. *)
Lemma register_endpoint_serving path handler ms s :
  _got_first_request s = true ->
  register_endpoint path handler ms s =
    let bound := if startswith path "/" then path else "/api/" +:+ path in
    mkRun (Raise (mkException "AssertionError" setup_finished_message)) s
      [Log INFO [Text "Registering custom endpoint: "; Text bound;
                 Text " (methods: "; Strings (methods_or ms ["POST"]); Text ")"]].
Proof.
  intros Hflag. unfold register_endpoint, app_route_endpoint_wrapper.
  py_unfold. rewrite Hflag. by destruct (startswith path "/").
Qed.


(** A call changes nothing of the server but the routing table. *)
Lemma register_endpoint_frame path handler ms s :
  response_handlers (final (register_endpoint path handler ms s)) = response_handlers s
  /\ identity (final (register_endpoint path handler ms s)) = identity s
  /\ message_queue (final (register_endpoint path handler ms s)) = message_queue s
  /\ _got_first_request (final (register_endpoint path handler ms s)) = _got_first_request s.
Proof.
  destruct (_got_first_request s) eqn:Hflag.
  - by rewrite register_endpoint_serving.
  - destruct (registered_wrapper (url_map s)) as [earlier|] eqn:Hw.
    + by rewrite (register_endpoint_again _ _ _ _ _ Hflag Hw).
    + by rewrite (register_endpoint_run _ _ _ _ Hflag Hw).
Qed.







(** A list of methods that is not empty is bound as given. *)
Lemma register_endpoint_given_methods s path handler m ms :
  _got_first_request s = false ->
  exists r, url_map (final (register_endpoint path handler (Some (m :: ms)) s)) = url_map s ++ [r]
    /\ methods r = m :: ms.
Proof.
  intros Hflag. destruct (registered_wrapper (url_map s)) as [earlier|] eqn:Hw.
  - rewrite (register_endpoint_again _ _ _ _ _ Hflag Hw). cbn. eauto.
  - rewrite (register_endpoint_run _ _ _ _ Hflag Hw). cbn. eauto.
Qed.

(** A request routed to the rule of the first [register_endpoint] call
    runs the wrapper of that call. *)
Lemma registered_endpoint_runs_wrapper `{RT : AgentRuntime} path handler ms s request :
  _got_first_request s = false ->
  registered_wrapper (url_map s) = None ->
  exists r, last (url_map (final (register_endpoint path handler ms s))) = Some r
    /\ run_view (view_func r) request = endpoint_wrapper (rule r) handler request.
Proof.
  intros Hflag Hnone. rewrite (register_endpoint_run _ _ _ _ Hflag Hnone).
  cbn. rewrite last_snoc. eauto.
Qed.

(** The whole run of the wrapper. *)
Lemma endpoint_wrapper_run path handler request s :
  endpoint_wrapper path handler request s =
    match request_data request with
    | Raise e =>
        mkRun (Return (error_response (exc_str e))) s
          [Log ERROR [Text "Endpoint error: "; Text (exc_str e)]]
    | Return data =>
        let received :=
          [Log INFO [Text "Received request to "; Text path; Text ": "; Json data];
           Call_endpoint path data] in
        match handler data with
        | Raise e =>
            mkRun (Return (error_response (exc_str e))) s
              (received ++ [Log ERROR [Text "Endpoint error: "; Text (exc_str e)]])
        | Return v =>
            match jsonify v with
            | Return r => mkRun (Return r) s received
            | Raise e =>
                mkRun (Return (error_response (exc_str e))) s
                  (received ++ [Log ERROR [Text "Endpoint error: "; Text (exc_str e)]])
            end
        end
    end.
Proof.
  py_unfold. destruct (request_data request) as [data|e]; cbn; [|done].
  destruct (handler data) as [v|e]; cbn; [|done].
  by destruct (jsonify v).
Qed.

(** C7, as the code has it.  A request that is not of JSON content type
    has the callback invoked on the empty mapping; one of JSON content
    type whose body parses, on the parsed body.  A return value the JSON
    provider can serialise is the body of the answer, with status 200.
    If reading the body, the callback or the serialisation raises, the
    answer is HTTP 500 with [{"error": str(e)}]; when reading the body
    raises the callback is not invoked.  The wrapper itself never raises. *)
Theorem endpoint_wrapper_answers
    (s : AgentServer) (path : string) (handler : Callback) (request : Request) :
  (is_json request = false ->
     endpoint_calls (emitted (endpoint_wrapper path handler request s)) = [(path, JObj [])])
  /\ (forall data, is_json request = true -> get_json request = Return data ->
        endpoint_calls (emitted (endpoint_wrapper path handler request s)) = [(path, data)])
  /\ (forall data j, request_data request = Return data ->
        handler data = Return (PyJson j) ->
        result (endpoint_wrapper path handler request s) =
          Return {| status_code := 200; body := j |})
  /\ (forall data e, request_data request = Return data ->
        handler data = Raise e ->
        result (endpoint_wrapper path handler request s) =
          Return {| status_code := 500; body := JObj [("error", JStr (exc_str e))] |})
  /\ (forall e, is_json request = true -> get_json request = Raise e ->
        result (endpoint_wrapper path handler request s) =
          Return {| status_code := 500; body := JObj [("error", JStr (exc_str e))] |}
        /\ endpoint_calls (emitted (endpoint_wrapper path handler request s)) = [])
  /\ (forall data v e, request_data request = Return data ->
        handler data = Return v -> jsonify v = Raise e ->
        result (endpoint_wrapper path handler request s) =
          Return {| status_code := 500; body := JObj [("error", JStr (exc_str e))] |})
  /\ (exists r, result (endpoint_wrapper path handler request s) = Return r).
Proof.
  rewrite endpoint_wrapper_run. unfold request_data. split_and!.
  - intros ->. destruct (handler (JObj [])) as [v|e]; [by destruct (jsonify v)|done].
  - intros data -> ->. destruct (handler data) as [v|e]; [by destruct (jsonify v)|done].
  - by intros data j -> ->.
  - by intros data e -> ->.
  - by intros e -> ->.
  - by intros data v e -> -> ->.
  - destruct (if is_json request then _ else _) as [data|e]; [|by eexists].
    destruct (handler data) as [v|e]; [|by eexists].
    destruct (jsonify v); by eexists.
Qed.

Lemma endpoint_wrapper_answers_witness :
  endpoint_calls (emitted (endpoint_wrapper "/api/search" Demo.echo (Demo.post "q") Demo.fresh))
    = [("/api/search", JObj [])]
  /\ endpoint_calls (emitted (endpoint_wrapper "/api/search" Demo.echo
                       (Demo.post_json (JObj [("query", JStr "rocq")])) Demo.fresh))
     = [("/api/search", JObj [("query", JStr "rocq")])]
  /\ result (endpoint_wrapper "/api/search" Demo.echo
               (Demo.post_json (JObj [("query", JStr "rocq")])) Demo.fresh)
     = Return {| status_code := 200; body := JObj [("query", JStr "rocq")] |}
  /\ result (endpoint_wrapper "/api/search" Demo.failing (Demo.post "q") Demo.fresh)
     = Return {| status_code := 500; body := JObj [("error", JStr "boom")] |}.
Proof.
  split; [|split; [|split]].
  - exact (proj1 (endpoint_wrapper_answers Demo.fresh "/api/search" Demo.echo (Demo.post "q"))
             eq_refl).
  - exact (proj1 (proj2 (endpoint_wrapper_answers Demo.fresh "/api/search" Demo.echo
             (Demo.post_json (JObj [("query", JStr "rocq")]))))
             (JObj [("query", JStr "rocq")]) eq_refl eq_refl).
  - exact (proj1 (proj2 (proj2 (endpoint_wrapper_answers Demo.fresh "/api/search" Demo.echo
             (Demo.post_json (JObj [("query", JStr "rocq")])))))
             (JObj [("query", JStr "rocq")]) (JObj [("query", JStr "rocq")]) eq_refl eq_refl).
  - exact (proj1 (proj2 (proj2 (proj2 (endpoint_wrapper_answers Demo.fresh "/api/search"
             Demo.failing (Demo.post "q")))))
             (JObj []) (mkException "RuntimeError" "boom") eq_refl eq_refl).
Defined.

(** C7, as stated, fails: on a request of JSON content type whose body
    does not parse, the callback is invoked neither on the empty mapping
    nor on a parsed body; the answer is the HTTP 500 error. *)
Lemma endpoint_wrapper_malformed_body_skips_callback :
  is_json Demo.post_malformed = true
  /\ endpoint_calls (emitted (endpoint_wrapper "/api/search" Demo.echo
                       Demo.post_malformed Demo.fresh)) = []
  /\ result (endpoint_wrapper "/api/search" Demo.echo Demo.post_malformed Demo.fresh)
     = Return {| status_code := 500; body := JObj [("error", JStr "400 Bad Request")] |}.
Proof. split_and!; reflexivity. Qed.

(** ** Start-up *)

Section Start.

Context `{RT : AgentRuntime}.

Lemma truthy_false (o : option string) :
  truthy o = false <-> o = None \/ o = Some "".
Proof.
  destruct o as [k|]; cbn.
  - rewrite negb_false_iff, String.eqb_eq.
    split; [intros ->; by right | by intros [[=] | [= ->]]].
  - split; [by left | done].
Qed.

Lemma truthy_true (o : option string) :
  truthy o = true <-> exists k, o = Some k /\ k <> "".
Proof.
  destruct o as [k|]; cbn.
  - rewrite negb_true_iff, String.eqb_neq.
    split; [intros H; by exists k | by intros (k' & [= ->] & H)].
  - split; [done | by intros (k & [=] & _)].
Qed.

(** The whole run of [_init_agent] when a credential is missing. *)
Lemma init_agent_missing_keys s :
  truthy (agent_key s) = false \/ truthy (agentverse_token s) = false ->
  _init_agent s =
    mkRun (Raise (mkException "ValueError" "Missing required API keys")) s
      [Log ERROR [Text "Agent initialization failed: "; Text "Missing required API keys"]].
Proof.
  intros H. py_unfold.
  assert (negb (truthy (agent_key s)) || negb (truthy (agentverse_token s)) = true) as ->.
  { destruct H as [-> | ->]; [done | apply orb_true_r]. }
  done.
Qed.

(** ... when creating the identity raises. *)
Lemma init_agent_seed_failure s key token e :
  agent_key s = Some key -> key <> "" ->
  agentverse_token s = Some token -> token <> "" ->
  Identity_from_seed key 0 = Raise e ->
  _init_agent s =
    mkRun (Raise e) s [Log ERROR [Text "Agent initialization failed: "; Text (exc_str e)]].
Proof.
  intros Hk Hk' Ht Ht' He. py_unfold. rewrite Hk, Ht. cbn.
  apply String.eqb_neq in Hk', Ht'. rewrite Hk', Ht'. cbn. by rewrite He.
Qed.

(** ... when the directory registration raises, or returns. *)
Lemma init_agent_registered s key token i :
  agent_key s = Some key -> key <> "" ->
  agentverse_token s = Some token -> token <> "" ->
  Identity_from_seed key 0 = Return i ->
  let called :=
    [Log INFO [Text "Created agent identity with address: "; Text (address i)];
     Log INFO [Text "Registering agent with webhook URL: "; Text (webhook_url (config s))];
     Register_with_agentverse i (webhook_url (config s)) token
       (title (metadata s)) (readme (metadata s))] in
  _init_agent s =
    match register_with_agentverse i (webhook_url (config s)) token
            (title (metadata s)) (readme (metadata s)) with
    | Return _ =>
        mkRun (Return true) (set_identity (Some i) s)
          (called ++ [Log INFO [Text "Agent '"; Text (title (metadata s));
                                Text "' registered successfully"]])
    | Raise e =>
        mkRun (Raise e) (set_identity (Some i) s)
          (called ++ [Log ERROR [Text "Agent initialization failed: "; Text (exc_str e)]])
    end.
Proof.
  intros Hk Hk' Ht Ht' Hi. py_unfold. rewrite Hk, Ht. cbn.
  apply String.eqb_neq in Hk', Ht'. rewrite Hk', Ht'. cbn. rewrite Hi. cbn.
  by destruct (register_with_agentverse _ _ _ _ _).
Qed.

Lemma start_run s :
  start s =
    match _init_agent s with
    | mkRun (Return _) s1 evs =>
        mkRun (Return tt) s1
          (evs ++ [Thread_start;
                   Log INFO [Text "Server started on "; Text (host (config s1)); Text ":";
                             Text (pretty (port (config s1)))]])
    | mkRun (Raise e) s1 evs => mkRun (Raise e) s1 evs
    end.
Proof.
  unfold start, mbind, M_bind, bind. destruct (_init_agent s) as [[b|e] s1 evs]; done.
Qed.

(** A registration that fails leaves the identity it was attempted with on
    the server: the assignment of line 130 precedes the call of line 137. *)
Lemma start_registration_failure_keeps_identity s key token i e :
  agent_key s = Some key -> key <> "" ->
  agentverse_token s = Some token -> token <> "" ->
  Identity_from_seed key 0 = Return i ->
  register_with_agentverse i (webhook_url (config s)) token
    (title (metadata s)) (readme (metadata s)) = Raise e ->
  result (start s) = Raise e /\ identity (final (start s)) = Some i.
Proof.
  intros Hk Hk' Ht Ht' Hi He.
  rewrite start_run, (init_agent_registered _ _ _ _ Hk Hk' Ht Ht' Hi). cbn.
  by rewrite He.
Qed.

Lemma init_agent_message_queue s :
  message_queue (final (_init_agent s)) = message_queue s.
Proof.
  destruct (truthy (agent_key s)) eqn:Hk;
    [|rewrite init_agent_missing_keys; auto].
  destruct (truthy (agentverse_token s)) eqn:Ht;
    [|rewrite init_agent_missing_keys; auto].
  apply truthy_true in Hk as (key & Hk & Hk'), Ht as (token & Ht & Ht').
  destruct (Identity_from_seed key 0) as [i|e] eqn:Hi.
  - rewrite (init_agent_registered _ _ _ _ Hk Hk' Ht Ht' Hi). cbn.
    by destruct (register_with_agentverse _ _ _ _ _).
  - by rewrite (init_agent_seed_failure _ _ _ _ Hk Hk' Ht Ht' Hi).
Qed.

Lemma start_message_queue s :
  message_queue (final (start s)) = message_queue s.
Proof.
  rewrite start_run. pose proof (init_agent_message_queue s) as H.
  by destruct (_init_agent s) as [[b|e] s1 evs].
Qed.

End Start.

(** C8.  [start] raises when the agent key or the directory token is
    missing (absent or empty), and raises the exception of the directory
    registration when that call raises; in both cases no listener thread
    is started.  When the registration returns, [start] starts the
    listener thread, once, and returns. *)
Theorem start_raises_or_serves `{RT : AgentRuntime} (s : AgentServer) :
  (agent_key s = None \/ agent_key s = Some "" \/
   agentverse_token s = None \/ agentverse_token s = Some "" ->
     result (start s) = Raise (mkException "ValueError" "Missing required API keys")
     /\ thread_starts (emitted (start s)) = 0)
  /\ (forall key token i e,
        agent_key s = Some key -> key <> "" ->
        agentverse_token s = Some token -> token <> "" ->
        Identity_from_seed key 0 = Return i ->
        register_with_agentverse i (webhook_url (config s)) token
          (title (metadata s)) (readme (metadata s)) = Raise e ->
        result (start s) = Raise e
        /\ thread_starts (emitted (start s)) = 0)
  /\ (forall key token i,
        agent_key s = Some key -> key <> "" ->
        agentverse_token s = Some token -> token <> "" ->
        Identity_from_seed key 0 = Return i ->
        register_with_agentverse i (webhook_url (config s)) token
          (title (metadata s)) (readme (metadata s)) = Return tt ->
        result (start s) = Return tt
        /\ thread_starts (emitted (start s)) = 1
        /\ identity (final (start s)) = Some i).
Proof.
  rewrite start_run. split_and!.
  - intros H. rewrite init_agent_missing_keys; [done|].
    rewrite !truthy_false. tauto.
  - intros key token i e Hk Hk' Ht Ht' Hi He.
    rewrite (init_agent_registered _ _ _ _ Hk Hk' Ht Ht' Hi), He. done.
  - intros key token i Hk Hk' Ht Ht' Hi Hr.
    rewrite (init_agent_registered _ _ _ _ Hk Hk' Ht Ht' Hi), Hr. done.
Qed.

Lemma start_raises_or_serves_witness :
  (result (start (RT := Demo.runtime)
             (AgentServer_init ServerConfig_default Demo.meta (Some "seed") None))
     = Raise (mkException "ValueError" "Missing required API keys")
   /\ thread_starts (emitted (start (RT := Demo.runtime)
             (AgentServer_init ServerConfig_default Demo.meta (Some "seed") None))) = 0)
  /\ (result (start (RT := Demo.runtime)
                (AgentServer_init ServerConfig_default Demo.meta (Some "seed") (Some "revoked")))
        = Raise (mkException "HTTPError" "401 Unauthorized")
      /\ thread_starts (emitted (start (RT := Demo.runtime)
                (AgentServer_init ServerConfig_default Demo.meta (Some "seed") (Some "revoked"))))
         = 0)
  /\ (result (start (RT := Demo.runtime) Demo.fresh) = Return tt
      /\ thread_starts (emitted (start (RT := Demo.runtime) Demo.fresh)) = 1
      /\ identity (final (start (RT := Demo.runtime) Demo.fresh))
         = Some {| address := "agent1qseed" |}).
Proof.
  split; [|split].
  - exact (proj1 (start_raises_or_serves (RT := Demo.runtime)
             (AgentServer_init ServerConfig_default Demo.meta (Some "seed") None))
             (or_intror (or_intror (or_introl eq_refl)))).
  - refine (proj1 (proj2 (start_raises_or_serves (RT := Demo.runtime)
             (AgentServer_init ServerConfig_default Demo.meta (Some "seed") (Some "revoked"))))
             "seed" "revoked" {| address := "agent1qseed" |}
             (mkException "HTTPError" "401 Unauthorized")
             eq_refl _ eq_refl _ eq_refl eq_refl); discriminate.
  - refine (proj2 (proj2 (start_raises_or_serves (RT := Demo.runtime) Demo.fresh))
             "seed" "token" {| address := "agent1qseed" |}
             eq_refl _ eq_refl _ eq_refl eq_refl); discriminate.
Defined.

(** The identity is on the server from the moment [Identity.from_seed]
    returns, whether the registration that follows returns or raises. *)
Lemma start_sets_identity `{RT : AgentRuntime} s key token i :
  agent_key s = Some key -> key <> "" ->
  agentverse_token s = Some token -> token <> "" ->
  Identity_from_seed key 0 = Return i ->
  identity (final (start s)) = Some i.
Proof.
  intros Hk Hk' Ht Ht' Hi.
  rewrite start_run, (init_agent_registered _ _ _ _ Hk Hk' Ht Ht' Hi). cbn.
  by destruct (register_with_agentverse _ _ _ _ _).
Qed.

(** C4, as the code has it.  While the server has no identity, as on a
    server that has not been started, [send_message] returns [False] and
    makes no outbound call.  [start] puts the identity on the server
    before it registers with the directory; from then on [send_message]
    makes the outbound call once: if that call raises, the exception is
    logged and [False] is returned, nothing is raised; if it returns,
    [True] is returned. *)
Theorem send_message_never_raises `{RT : AgentRuntime}
    (s : AgentServer) (recipient : string) (payload : json) :
  (identity s = None ->
     result (send_message recipient payload s) = Return false
     /\ outbound_sends (emitted (send_message recipient payload s)) = [])
  /\ (forall config metadata key token,
        result (send_message recipient payload
                  (AgentServer_init config metadata key token)) = Return false
        /\ outbound_sends (emitted (send_message recipient payload
                  (AgentServer_init config metadata key token))) = [])
  /\ (forall key token i,
        agent_key s = Some key -> key <> "" ->
        agentverse_token s = Some token -> token <> "" ->
        Identity_from_seed key 0 = Return i ->
        identity (final (start s)) = Some i)
  /\ (forall i e, identity s = Some i ->
        send_message_to_agent i recipient payload = Raise e ->
        result (send_message recipient payload s) = Return false
        /\ error_logs (emitted (send_message recipient payload s)) =
             [[Text "Failed to send message: "; Text (exc_str e)]])
  /\ (forall i, identity s = Some i ->
        send_message_to_agent i recipient payload = Return tt ->
        result (send_message recipient payload s) = Return true
        /\ outbound_sends (emitted (send_message recipient payload s)) =
             [(i, recipient, payload)]).
Proof.
  split_and!.
  - intros H. by rewrite (send_message_uninitialised _ _ _ H).
  - intros. by rewrite send_message_uninitialised.
  - apply start_sets_identity.
  - intros i e H He. rewrite (send_message_initialised _ _ _ _ H), He. done.
  - intros i H Hr. rewrite (send_message_initialised _ _ _ _ H), Hr. done.
Qed.

Lemma send_message_never_raises_witness :
  (result (send_message (RT := Demo.runtime) "agent1qpeer" (JStr "hi") Demo.fresh) = Return false
   /\ outbound_sends (emitted (send_message (RT := Demo.runtime) "agent1qpeer" (JStr "hi")
                         Demo.fresh)) = [])
  /\ identity (final (start (RT := Demo.runtime) Demo.fresh))
     = Some {| address := "agent1qseed" |}
  /\ result (send_message (RT := Demo.runtime) "unreachable" (JStr "hi")
               (set_identity (Some {| address := "agent1qseed" |}) Demo.fresh)) = Return false
  /\ result (send_message (RT := Demo.runtime) "agent1qpeer" (JStr "hi")
               (set_identity (Some {| address := "agent1qseed" |}) Demo.fresh)) = Return true.
Proof.
  split; [|split; [|split]].
  - exact (proj1 (send_message_never_raises (RT := Demo.runtime)
             Demo.fresh "agent1qpeer" (JStr "hi")) eq_refl).
  - refine (proj1 (proj2 (proj2 (send_message_never_raises (RT := Demo.runtime)
             Demo.fresh "agent1qpeer" (JStr "hi"))))
             "seed" "token" {| address := "agent1qseed" |}
             eq_refl _ eq_refl _ eq_refl); discriminate.
  - exact (proj1 (proj1 (proj2 (proj2 (proj2 (send_message_never_raises (RT := Demo.runtime)
             (set_identity (Some {| address := "agent1qseed" |}) Demo.fresh)
             "unreachable" (JStr "hi")))))
             {| address := "agent1qseed" |}
             (mkException "ConnectionError" "connection refused") eq_refl eq_refl)).
  - exact (proj1 (proj2 (proj2 (proj2 (proj2 (send_message_never_raises (RT := Demo.runtime)
             (set_identity (Some {| address := "agent1qseed" |}) Demo.fresh)
             "agent1qpeer" (JStr "hi")))))
             {| address := "agent1qseed" |} eq_refl eq_refl)).
Defined.

(** C4, as stated, fails: a [start] whose registration raised has not
    completed the registration, and a [send_message] after it makes the
    outbound call and returns [True]. *)
Lemma send_message_after_failed_registration :
  result (start (RT := Demo.runtime)
            (AgentServer_init ServerConfig_default Demo.meta (Some "seed") (Some "revoked")))
    = Raise (mkException "HTTPError" "401 Unauthorized")
  /\ result (send_message (RT := Demo.runtime) "agent1qpeer" (JStr "hi")
       (final (start (RT := Demo.runtime)
          (AgentServer_init ServerConfig_default Demo.meta (Some "seed") (Some "revoked")))))
     = Return true
  /\ outbound_sends (emitted (send_message (RT := Demo.runtime) "agent1qpeer" (JStr "hi")
       (final (start (RT := Demo.runtime)
          (AgentServer_init ServerConfig_default Demo.meta (Some "seed") (Some "revoked"))))))
     = [({| address := "agent1qseed" |}, "agent1qpeer", JStr "hi")].
Proof. split_and!; reflexivity. Qed.

(** ** The message queue *)

Section Queue.

Context `{RT : AgentRuntime}.

Lemma webhook_message_queue s request :
  message_queue (final (webhook request s)) =
    match decode_envelope request with
    | Return message => message_queue s ++ [message]
    | Raise _ => message_queue s
    end.
Proof.
  destruct (decode_envelope request) as [message|e] eqn:H.
  - apply decode_envelope_Return in H as (data & Hd & Hp).
    by rewrite (webhook_decoded _ _ _ _ Hd Hp).
  - by destruct (webhook_failed s request e H) as (_ & -> & _).
Qed.

Lemma send_message_final s recipient payload :
  final (send_message recipient payload s) = s.
Proof.
  destruct (identity s) as [i|] eqn:H.
  - by rewrite (send_message_initialised _ _ _ _ H).
  - by rewrite (send_message_uninitialised _ _ _ H).
Qed.

Lemma endpoint_wrapper_final path handler request s :
  final (endpoint_wrapper path handler request s) = s.
Proof.
  rewrite endpoint_wrapper_run.
  destruct (request_data request) as [data|e]; [|done]. cbn.
  destruct (handler data) as [v|e]; [|done].
  by destruct (jsonify v).
Qed.

(** The framework's note aside, a dispatched request ends where its view
    ends. *)
Lemma full_dispatch_request_final v request s :
  final (full_dispatch_request v request s)
  = final (run_view v request (set_got_first_request true s)).
Proof.
  unfold full_dispatch_request, mbind, M_bind, bind, modify.
  by destruct (run_view v request _) as [[r|e] s1 evs].
Qed.

(** No operation takes an entry off the queue. *)
Lemma exec_message_queue (o : op) s :
  message_queue s `prefix_of` message_queue (exec o s).
Proof.
  destruct o as [request| |path handler request|a' h|path handler ms|recipient payload|];
    cbn [exec]; rewrite ?full_dispatch_request_final; cbn [run_view].
  - rewrite webhook_message_queue.
    destruct (decode_envelope request); [by apply prefix_app_r | done].
  - done.
  - by rewrite endpoint_wrapper_final.
  - done.
  - by destruct (register_endpoint_frame path handler ms s) as (_ & _ & -> & _).
  - by rewrite send_message_final.
  - by rewrite start_message_queue.
Qed.

Lemma exec_all_message_queue (ops : list op) s :
  message_queue s `prefix_of` message_queue (exec_all ops s).
Proof.
  revert s. induction ops as [|o ops IH]; intros s; cbn; [done|].
  etrans; [apply (exec_message_queue o) | apply IH].
Qed.

End Queue.

(** C9.  A webhook request appends exactly one entry to the queue, the
    decoded message at the back, if and only if its body decodes; when the
    decoding fails the queue is unchanged.  No operation of the dispatch
    surface removes an entry: after any sequence of operations the queue
    still begins with what it held, so its length never decreases. *)
Theorem message_queue_only_grows `{RT : AgentRuntime} (s : AgentServer) :
  (forall request,
      message_queue (final (webhook request s)) =
        match decode_envelope request with
        | Return message => message_queue s ++ [message]
        | Raise _ => message_queue s
        end)
  /\ (forall request,
        (exists m, message_queue (final (webhook request s)) = message_queue s ++ [m])
        <-> returned (decode_envelope request) = true)
  /\ (forall ops,
        message_queue s `prefix_of` message_queue (exec_all ops s)
        /\ length (message_queue s) <= length (message_queue (exec_all ops s))).
Proof.
  split_and!.
  - apply webhook_message_queue.
  - intros request. rewrite webhook_message_queue.
    destruct (decode_envelope request) as [message|e]; cbn.
    + split; [done | by exists message].
    + split; [|done]. intros (m & Hm).
      apply (f_equal length) in Hm. rewrite length_app in Hm. cbn in Hm. lia.
  - intros ops. pose proof (exec_all_message_queue ops s) as H.
    split; [done | by apply prefix_length].
Qed.

Lemma message_queue_only_grows_witness :
  message_queue (final (webhook (RT := Demo.runtime) (Demo.post "agent1|hello") Demo.fresh))
    = [{| sender := "agent1"; payload := JStr "hello" |}]
  /\ message_queue (final (webhook (RT := Demo.runtime) (Demo.post "no bar here") Demo.fresh))
     = []
  /\ length (message_queue Demo.fresh)
     <= length (message_queue (exec_all (RT := Demo.runtime)
                  [Op_start; Op_webhook (Demo.post "agent1|hello"); Op_health_check;
                   Op_send_message "agent1qpeer" (JStr "hi")] Demo.fresh)).
Proof.
  split; [|split].
  - exact (proj1 (message_queue_only_grows (RT := Demo.runtime) Demo.fresh)
             (Demo.post "agent1|hello")).
  - exact (proj1 (message_queue_only_grows (RT := Demo.runtime) Demo.fresh)
             (Demo.post "no bar here")).
  - exact (proj2 (proj2 (proj2 (message_queue_only_grows (RT := Demo.runtime) Demo.fresh))
             [Op_start; Op_webhook (Demo.post "agent1|hello"); Op_health_check;
              Op_send_message "agent1qpeer" (JStr "hi")])).
Defined.

(** * Further properties of the server *)

Section ServerFacts.

Context `{RT : AgentRuntime}.

(** [start] changes nothing of the server but its identity. *)
Lemma start_final s :
  final (start s) = s \/ exists i, final (start s) = set_identity (Some i) s.
Proof.
  rewrite start_run.
  destruct (truthy (agent_key s)) eqn:Hk;
    [|left; rewrite init_agent_missing_keys; auto].
  destruct (truthy (agentverse_token s)) eqn:Ht;
    [|left; rewrite init_agent_missing_keys; auto].
  apply truthy_true in Hk as (key & Hk & Hk'), Ht as (token & Ht & Ht').
  destruct (Identity_from_seed key 0) as [i|e] eqn:Hi.
  - right. exists i. rewrite (init_agent_registered _ _ _ _ Hk Hk' Ht Ht' Hi). cbn.
    by destruct (register_with_agentverse _ _ _ _ _).
  - left. by rewrite (init_agent_seed_failure _ _ _ _ Hk Hk' Ht Ht' Hi).
Qed.

Lemma webhook_final s request :
  final (webhook request s) =
    match decode_envelope request with
    | Return message => queue_put message s
    | Raise _ => s
    end.
Proof.
  destruct (decode_envelope request) as [message|e] eqn:H.
  - apply decode_envelope_Return in H as (data & Hd & Hp).
    by rewrite (webhook_decoded _ _ _ _ Hd Hp).
  - by destruct (webhook_failed s request e H) as (_ & -> & _).
Qed.

Lemma exec_response_handlers (o : op) s a :
  is_Some (response_handlers s !! a) -> is_Some (response_handlers (exec o s) !! a).
Proof.
  intros Ha. destruct o as [request| |path handler request|a' h|path handler ms|recipient payload|];
    cbn [exec]; rewrite ?full_dispatch_request_final; cbn [run_view].
  - rewrite webhook_final. by destruct (decode_envelope request).
  - done.
  - by rewrite endpoint_wrapper_final.
  - rewrite register_handler_lookup. by case_decide.
  - by destruct (register_endpoint_frame path handler ms s) as (-> & _).
  - by rewrite send_message_final.
  - by destruct (start_final s) as [-> | (i & ->)].
Qed.

Lemma exec_identity (o : op) s :
  is_Some (identity s) -> is_Some (identity (exec o s)).
Proof.
  intros Hi. destruct o as [request| |path handler request|a' h|path handler ms|recipient payload|];
    cbn [exec]; rewrite ?full_dispatch_request_final; cbn [run_view].
  - rewrite webhook_final. by destruct (decode_envelope request).
  - done.
  - by rewrite endpoint_wrapper_final.
  - done.
  - by destruct (register_endpoint_frame path handler ms s) as (_ & -> & _).
  - by rewrite send_message_final.
  - by destruct (start_final s) as [-> | (i & ->)].
Qed.

End ServerFacts.

(** X1.  [register_handler] is an upsert: after registering twice under
    one address the second handler is the one looked up, the handlers
    under every other address are as before, and the queue, the identity
    and the routing table are untouched. *)
Theorem register_handler_upserts `{RT : AgentRuntime}
    (s : AgentServer) (a : string) (h1 h2 : Callback) :
  response_handlers (final (register_handler a h2 (final (register_handler a h1 s)))) !! a
    = Some h2
  /\ (forall b, b <> a ->
        response_handlers (final (register_handler a h1 s)) !! b = response_handlers s !! b)
  /\ message_queue (final (register_handler a h1 s)) = message_queue s
  /\ identity (final (register_handler a h1 s)) = identity s
  /\ url_map (final (register_handler a h1 s)) = url_map s.
Proof.
  split_and!; try done.
  - rewrite register_handler_lookup. by rewrite decide_True.
  - intros b Hb. rewrite register_handler_lookup. by rewrite decide_False.
Qed.

(** X2.  A decoded message whose sender has no handler is still queued
    and answered with success; no handler is invoked and no error is
    logged. *)
Theorem webhook_without_handler `{RT : AgentRuntime}
    (s : AgentServer) (request : Request) (message : AgentMessage) :
  decode_envelope request = Return message ->
  response_handlers s !! sender message = None ->
  result (webhook request s) = Return success_response
  /\ final (webhook request s) = queue_put message s
  /\ handler_calls (emitted (webhook request s)) = []
  /\ error_logs (emitted (webhook request s)) = [].
Proof.
  intros (data & Hd & Hp)%decode_envelope_Return Hnone.
  rewrite (webhook_decoded _ _ _ _ Hd Hp). cbn.
  unfold handler_events. by rewrite Hnone.
Qed.

Lemma webhook_without_handler_witness :
  result (webhook (RT := Demo.runtime) (Demo.post "agent2|hello")
            (Demo.with_handler "agent1" Demo.echo Demo.fresh)) = Return success_response
  /\ handler_calls (emitted (webhook (RT := Demo.runtime) (Demo.post "agent2|hello")
                      (Demo.with_handler "agent1" Demo.echo Demo.fresh))) = [].
Proof.
  destruct (webhook_without_handler (RT := Demo.runtime)
              (Demo.with_handler "agent1" Demo.echo Demo.fresh)
              (Demo.post "agent2|hello")
              {| sender := "agent2"; payload := JStr "hello" |} eq_refl eq_refl)
    as (H1 & _ & H3 & _).
  split; [exact H1 | exact H3].
Defined.

(** X3.  The queue is first in, first out at the back: two decodable
    webhook requests in a row leave their messages at the end of the
    queue in the order of arrival. *)
Theorem webhook_queues_in_arrival_order `{RT : AgentRuntime}
    (s : AgentServer) (request1 request2 : Request) (m1 m2 : AgentMessage) :
  decode_envelope request1 = Return m1 ->
  decode_envelope request2 = Return m2 ->
  message_queue (final (webhook request2 (final (webhook request1 s))))
    = message_queue s ++ [m1; m2].
Proof.
  intros H1 H2. rewrite !webhook_final, H1, H2. cbn. by rewrite <- app_assoc.
Qed.

Lemma webhook_queues_in_arrival_order_witness :
  message_queue (final (webhook (RT := Demo.runtime) (Demo.post "agent2|second")
                   (final (webhook (RT := Demo.runtime) (Demo.post "agent1|first") Demo.fresh))))
    = [{| sender := "agent1"; payload := JStr "first" |};
       {| sender := "agent2"; payload := JStr "second" |}].
Proof.
  exact (webhook_queues_in_arrival_order (RT := Demo.runtime) Demo.fresh
           (Demo.post "agent1|first") (Demo.post "agent2|second")
           {| sender := "agent1"; payload := JStr "first" |}
           {| sender := "agent2"; payload := JStr "second" |} eq_refl eq_refl).
Defined.

(** X4.  The webhook view assigns nothing of the server object but the
    message queue: the handler table, the identity, the routing table,
    the credentials and the configuration are as before, whether the body
    decodes or not and whether the handler returns or raises.  (A handler
    is a function of the payload here; what a handler that holds the
    server object does to it is the handler's, not the view's.) *)
Theorem webhook_touches_only_queue `{RT : AgentRuntime}
    (s : AgentServer) (request : Request) :
  response_handlers (final (webhook request s)) = response_handlers s
  /\ identity (final (webhook request s)) = identity s
  /\ url_map (final (webhook request s)) = url_map s
  /\ _got_first_request (final (webhook request s)) = _got_first_request s
  /\ agent_key (final (webhook request s)) = agent_key s
  /\ agentverse_token (final (webhook request s)) = agentverse_token s
  /\ config (final (webhook request s)) = config s
  /\ metadata (final (webhook request s)) = metadata s.
Proof. rewrite webhook_final. by destruct (decode_envelope request). Qed.

(** X5.  The health view, a request to a custom endpoint and
    [send_message] leave the server object exactly as it was, whether the
    callback or the outbound send returns or raises. *)
Theorem reads_leave_server_unchanged `{RT : AgentRuntime} (s : AgentServer) :
  final (health_check s) = s
  /\ (forall path handler request, final (endpoint_wrapper path handler request s) = s)
  /\ (forall recipient payload, final (send_message recipient payload s) = s).
Proof.
  split_and!; [done | |].
  - intros. apply endpoint_wrapper_final.
  - intros. apply send_message_final.
Qed.

(** X6.  The handler table is add-only: an address that has a handler
    still has one after any sequence of operations. *)
Theorem registered_handlers_stay `{RT : AgentRuntime}
    (ops : list op) (s : AgentServer) (a : string) :
  is_Some (response_handlers s !! a) ->
  is_Some (response_handlers (exec_all ops s) !! a).
Proof.
  revert s. induction ops as [|o ops IH]; intros s Ha; cbn; [done|].
  by apply IH, exec_response_handlers.
Qed.

Lemma registered_handlers_stay_witness :
  is_Some (response_handlers
             (exec_all (RT := Demo.runtime)
                [Op_webhook (Demo.post "agent1|hello"); Op_start;
                 Op_register_handler "agent2" Demo.failing;
                 Op_send_message "agent1qpeer" (JStr "hi")]
                (Demo.with_handler "agent1" Demo.echo Demo.fresh)) !! "agent1").
Proof.
  refine (registered_handlers_stay (RT := Demo.runtime) _
            (Demo.with_handler "agent1" Demo.echo Demo.fresh) "agent1" _).
  exists Demo.echo. reflexivity.
Defined.

(** X7.  The identity is never cleared: once the server has one it has
    one after any sequence of operations, and the health view answers
    "healthy". *)
Theorem identity_stays `{RT : AgentRuntime} (ops : list op) (s : AgentServer) :
  is_Some (identity s) ->
  is_Some (identity (exec_all ops s))
  /\ exists r, result (health_check (exec_all ops s)) = Return r
       /\ json_get "status" (body r) = Some (JStr "healthy").
Proof.
  intros Hi.
  assert (is_Some (identity (exec_all ops s))) as Hs.
  { revert s Hi. induction ops as [|o ops IH]; intros s Hi; cbn; [done|].
    by apply IH, exec_identity. }
  split; [done|]. rewrite health_check_run. destruct Hs as [i ->]. by eexists.
Qed.

Lemma identity_stays_witness :
  is_Some (identity (exec_all (RT := Demo.runtime)
             [Op_webhook (Demo.post "garbage"); Op_start; Op_health_check] Samples.started)).
Proof.
  refine (proj1 (identity_stays (RT := Demo.runtime)
            [Op_webhook (Demo.post "garbage"); Op_start; Op_health_check]
            Samples.started _)).
  exists {| address := "agent1qseed" |}. reflexivity.
Defined.

(** X8.  When the credentials are present and creating the identity
    raises, [start] raises that exception; the server is left as it was
    (no identity), the directory is not called and no listener thread is
    started. *)
Theorem start_identity_creation_failure `{RT : AgentRuntime}
    (s : AgentServer) (key token : string) (e : PyException) :
  agent_key s = Some key -> key <> "" ->
  agentverse_token s = Some token -> token <> "" ->
  Identity_from_seed key 0 = Raise e ->
  result (start s) = Raise e
  /\ final (start s) = s
  /\ registrations (emitted (start s)) = []
  /\ thread_starts (emitted (start s)) = 0.
Proof.
  intros Hk Hk' Ht Ht' He.
  by rewrite start_run, (init_agent_seed_failure _ _ _ _ Hk Hk' Ht Ht' He).
Qed.

Lemma start_identity_creation_failure_witness :
  result (start (RT := Samples.seedless_runtime) Demo.fresh)
    = Raise (mkException "ValueError" "invalid seed")
  /\ final (start (RT := Samples.seedless_runtime) Demo.fresh) = Demo.fresh.
Proof.
  refine (let H := start_identity_creation_failure (RT := Samples.seedless_runtime)
                     Demo.fresh "seed" "token" (mkException "ValueError" "invalid seed")
                     eq_refl _ eq_refl _ eq_refl in
          conj (proj1 H) (proj1 (proj2 H))); discriminate.
Defined.

(** X9.  With the credentials present and the identity created, [start]
    calls the directory exactly once, whether that call returns or
    raises, with the new identity, the token, the title and the readme of
    the metadata, and the URL [http://<host>:<port>] followed by the path
    the webhook view is bound at; with a credential missing the directory
    is not called. *)
Theorem start_registers_webhook_url `{RT : AgentRuntime}
    (s : AgentServer) (key token : string) (i : Identity) :
  agent_key s = Some key -> key <> "" ->
  agentverse_token s = Some token -> token <> "" ->
  Identity_from_seed key 0 = Return i ->
  registrations (emitted (start s))
    = [(i, webhook_url (config s), token, title (metadata s), readme (metadata s))]
  /\ (exists r, r ∈ url_map (AgentServer_init (config s) (metadata s)
                               (agent_key s) (agentverse_token s))
        /\ view_func r = View_webhook
        /\ webhook_url (config s)
           = "http://" +:+ host (config s) +:+ ":" +:+ pretty (port (config s)) +:+ rule r)
  /\ (forall s', truthy (agent_key s') = false \/ truthy (agentverse_token s') = false ->
        registrations (emitted (start s')) = []).
Proof.
  intros Hk Hk' Ht Ht' Hi. split_and!.
  - rewrite start_run, (init_agent_registered _ _ _ _ Hk Hk' Ht Ht' Hi). cbn.
    by destruct (register_with_agentverse _ _ _ _ _).
  - eexists. split; [apply list_elem_of_here|]. done.
  - intros s' H. by rewrite start_run, (init_agent_missing_keys _ H).
Qed.

Lemma start_registers_webhook_url_witness :
  registrations (emitted (start (RT := Demo.runtime) Demo.fresh))
    = [({| address := "agent1qseed" |}, "http://0.0.0.0:5001/api/webhook", "token",
        "Tavily Search Agent", "<description/>")].
Proof.
  refine (proj1 (start_registers_webhook_url (RT := Demo.runtime) Demo.fresh
            "seed" "token" {| address := "agent1qseed" |} eq_refl _ eq_refl _ eq_refl));
    discriminate.
Defined.

(** X10.  After a [start] that returned, the health view answers
    "healthy" with the address of the identity [start] created, and
    [send_message] hands the message to the outbound send under that
    identity. *)
Theorem start_then_serve `{RT : AgentRuntime}
    (s : AgentServer) (key token : string) (i : Identity) :
  agent_key s = Some key -> key <> "" ->
  agentverse_token s = Some token -> token <> "" ->
  Identity_from_seed key 0 = Return i ->
  result (start s) = Return tt ->
  result (health_check (final (start s)))
    = Return {| status_code := 200;
                body := JObj [("status", JStr "healthy");
                              ("agent_address", JStr (address i))] |}
  /\ forall recipient payload,
       outbound_sends (emitted (send_message recipient payload (final (start s))))
         = [(i, recipient, payload)].
Proof.
  intros Hk Hk' Ht Ht' Hi _.
  pose proof (start_sets_identity s key token i Hk Hk' Ht Ht' Hi) as Hid.
  split.
  - by rewrite health_check_run, Hid.
  - intros recipient payload. rewrite (send_message_initialised _ _ _ _ Hid). cbn.
    by destruct (send_message_to_agent i recipient payload).
Qed.

Lemma start_then_serve_witness :
  result (health_check (final (start (RT := Demo.runtime) Demo.fresh)))
    = Return {| status_code := 200;
                body := JObj [("status", JStr "healthy");
                              ("agent_address", JStr "agent1qseed")] |}.
Proof.
  refine (proj1 (start_then_serve (RT := Demo.runtime) Demo.fresh
            "seed" "token" {| address := "agent1qseed" |}
            eq_refl _ eq_refl _ eq_refl eq_refl)); discriminate.
Defined.

(** X11.  [start] does not guard against a second call: after a [start]
    that returned, calling it again registers with the directory again
    and starts another listener thread. *)
Theorem start_twice_starts_two_threads `{RT : AgentRuntime}
    (s : AgentServer) (key token : string) (i : Identity) :
  agent_key s = Some key -> key <> "" ->
  agentverse_token s = Some token -> token <> "" ->
  Identity_from_seed key 0 = Return i ->
  register_with_agentverse i (webhook_url (config s)) token
    (title (metadata s)) (readme (metadata s)) = Return tt ->
  result (start (final (start s))) = Return tt
  /\ thread_starts (emitted (start s)) + thread_starts (emitted (start (final (start s)))) = 2
  /\ length (registrations (emitted (start s))
             ++ registrations (emitted (start (final (start s))))) = 2.
Proof.
  intros Hk Hk' Ht Ht' Hi Hr.
  assert (final (start s) = set_identity (Some i) s) as ->.
  { by rewrite start_run, (init_agent_registered _ _ _ _ Hk Hk' Ht Ht' Hi), Hr. }
  rewrite !start_run.
  rewrite (init_agent_registered s _ _ _ Hk Hk' Ht Ht' Hi), Hr.
  rewrite (init_agent_registered (set_identity (Some i) s) key token i); try done.
  cbn. by rewrite Hr.
Qed.

Lemma start_twice_starts_two_threads_witness :
  thread_starts (emitted (start (RT := Demo.runtime) Demo.fresh))
  + thread_starts (emitted (start (RT := Demo.runtime)
                     (final (start (RT := Demo.runtime) Demo.fresh)))) = 2.
Proof.
  refine (proj1 (proj2 (start_twice_starts_two_threads (RT := Demo.runtime) Demo.fresh
            "seed" "token" {| address := "agent1qseed" |}
            eq_refl _ eq_refl _ eq_refl eq_refl))); discriminate.
Defined.

(** X12.  Whatever makes [start] raise, it has logged exactly one error,
    carrying the message of the exception it raises, and has started no
    thread; when it returns it has logged no error and started exactly
    one thread. *)
Theorem start_logs_what_it_raises `{RT : AgentRuntime} (s : AgentServer) :
  (forall e, result (start s) = Raise e ->
     error_logs (emitted (start s)) = [[Text "Agent initialization failed: "; Text (exc_str e)]]
     /\ thread_starts (emitted (start s)) = 0)
  /\ (result (start s) = Return tt ->
        error_logs (emitted (start s)) = []
        /\ thread_starts (emitted (start s)) = 1).
Proof.
  rewrite start_run.
  destruct (truthy (agent_key s)) eqn:Hk;
    [|rewrite init_agent_missing_keys by auto; split; [by intros e' [= <-] | done]].
  destruct (truthy (agentverse_token s)) eqn:Ht;
    [|rewrite init_agent_missing_keys by auto; split; [by intros e' [= <-] | done]].
  apply truthy_true in Hk as (key & Hk & Hk'), Ht as (token & Ht & Ht').
  destruct (Identity_from_seed key 0) as [i|e0] eqn:Hi.
  - rewrite (init_agent_registered _ _ _ _ Hk Hk' Ht Ht' Hi). cbn.
    destruct (register_with_agentverse _ _ _ _ _); cbn;
      (split; [by intros e' [= <-] | done]).
  - rewrite (init_agent_seed_failure _ _ _ _ Hk Hk' Ht Ht' Hi).
    split; [by intros e' [= <-] | done].
Qed.








(** X16.  The webhook view never raises: it always answers, with status
    200 exactly when the body decoded and with status 500 otherwise. *)
Theorem webhook_always_answers `{RT : AgentRuntime} (s : AgentServer) (request : Request) :
  exists r, result (webhook request s) = Return r
    /\ (status_code r = 200%Z <-> returned (decode_envelope request) = true)
    /\ (status_code r = 500%Z <-> returned (decode_envelope request) = false).
Proof.
  destruct (decode_envelope request) as [message|e] eqn:H.
  - apply decode_envelope_Return in H as (data & Hd & Hp).
    rewrite (webhook_decoded _ _ _ _ Hd Hp). by eexists.
  - destruct (webhook_failed s request e H) as (-> & _). by eexists.
Qed.

(** * The search agent *)

Section SearchFacts.

Context `{LC : tavily_agent.LangChain}.

Lemma handle_search_dict fields :
  tavily_agent.handle_search (JObj fields) =
    let query := default JNull (json_get "query" (JObj fields)) in
    if json_truthy query
    then Return (PyJson (tavily_agent.search query))
    else Return (dict [("error", JStr "Missing search query")]).
Proof.
  unfold tavily_agent.handle_search, py_get. cbn zeta.
  by destruct (json_truthy _).
Qed.

Lemma search_is_object query :
  exists fields, tavily_agent.search query = JObj fields.
Proof.
  unfold tavily_agent.search.
  destruct (tavily_agent.agent_chain_run _); by eexists.
Qed.

End SearchFacts.

(** X17.  [handle_search] on a JSON object: without a [query], or with one
    that is null, empty, zero or false, it returns [{"error": "Missing
    search query"}] whatever the chain would do; with any other [query]
    it runs the chain on [{"input": query}] and returns a success report
    with the chain's text, or, when the chain raises, an error report with
    the exception's message; in neither case does it raise. *)
Theorem handle_search_reports `{LC : tavily_agent.LangChain}
    (fields : list (string * json)) :
  (json_truthy (default JNull (json_get "query" (JObj fields))) = false ->
     tavily_agent.handle_search (JObj fields)
       = Return (PyJson (JObj [("error", JStr "Missing search query")])))
  /\ (forall query text,
        json_get "query" (JObj fields) = Some query -> json_truthy query = true ->
        tavily_agent.agent_chain_run (JObj [("input", query)]) = Return text ->
        tavily_agent.handle_search (JObj fields)
          = Return (PyJson (JObj [("status", JStr "success"); ("result", JStr text)])))
  /\ (forall query e,
        json_get "query" (JObj fields) = Some query -> json_truthy query = true ->
        tavily_agent.agent_chain_run (JObj [("input", query)]) = Raise e ->
        tavily_agent.handle_search (JObj fields)
          = Return (PyJson (JObj [("status", JStr "error"); ("error", JStr (exc_str e))]))).
Proof.
  rewrite handle_search_dict. cbn zeta. split_and!.
  - by intros ->.
  - intros query text Hq Ht Hrun. rewrite Hq. cbn. rewrite Ht.
    unfold tavily_agent.search. by rewrite Hrun.
  - intros query e Hq Ht Hrun. rewrite Hq. cbn. rewrite Ht.
    unfold tavily_agent.search. by rewrite Hrun.
Qed.

Lemma handle_search_reports_witness :
  tavily_agent.handle_search (LC := Samples.chain) (JObj [("query", JStr "")])
    = Return (PyJson (JObj [("error", JStr "Missing search query")]))
  /\ tavily_agent.handle_search (LC := Samples.chain) (JObj [("query", JStr "rocq")])
     = Return (PyJson (JObj [("status", JStr "success"); ("result", JStr "three results")]))
  /\ tavily_agent.handle_search (LC := Samples.chain) (JObj [("query", JStr "offline")])
     = Return (PyJson (JObj [("status", JStr "error"); ("error", JStr "search timed out")])).
Proof.
  split; [|split].
  - exact (proj1 (handle_search_reports (LC := Samples.chain) [("query", JStr "")]) eq_refl).
  - exact (proj1 (proj2 (handle_search_reports (LC := Samples.chain)
             [("query", JStr "rocq")])) (JStr "rocq") "three results" eq_refl eq_refl eq_refl).
  - exact (proj2 (proj2 (handle_search_reports (LC := Samples.chain)
             [("query", JStr "offline")])) (JStr "offline")
             (mkException "TimeoutError" "search timed out") eq_refl eq_refl eq_refl).
Defined.

(** X18.  The search endpoint answers HTTP 200 to every request that is
    not of JSON content type or whose body is a JSON object, also when
    the query is missing or the chain fails: the failure is in the body
    only.  A request without JSON is answered [{"error": "Missing search
    query"}].  A JSON body that is not an object is answered HTTP 500
    with the [AttributeError] of the missing [get]. *)
Theorem search_endpoint_status `{LC : tavily_agent.LangChain}
    (s : AgentServer) (path : string) (request : Request) :
  (forall fields, request_data request = Return (JObj fields) ->
     exists b, result (endpoint_wrapper path tavily_agent.handle_search request s)
               = Return {| status_code := 200; body := JObj b |})
  /\ (is_json request = false ->
        result (endpoint_wrapper path tavily_agent.handle_search request s)
          = Return {| status_code := 200;
                      body := JObj [("error", JStr "Missing search query")] |})
  /\ (forall data, request_data request = Return data ->
        (forall fields, data <> JObj fields) ->
        result (endpoint_wrapper path tavily_agent.handle_search request s)
          = Return {| status_code := 500;
                      body := JObj [("error",
                        JStr ("'" +:+ type_name_of data
                              +:+ "' object has no attribute 'get'"))] |}).
Proof.
  rewrite endpoint_wrapper_run. split_and!.
  - intros fields ->. cbn zeta. rewrite handle_search_dict. cbn zeta.
    destruct (search_is_object (default JNull (json_get "query" (JObj fields))))
      as [b ->].
    destruct (json_truthy _); by eexists.
  - intros Hj. unfold request_data. rewrite Hj. done.
  - intros data -> Hno. cbn zeta.
    destruct data; try done. by destruct (Hno fields).
Qed.

Lemma search_endpoint_status_witness :
  (exists b, result (endpoint_wrapper "/api/search"
                       (tavily_agent.handle_search (LC := Samples.chain))
                       (Demo.post_json (JObj [("query", JStr "offline")])) Demo.fresh)
             = Return {| status_code := 200; body := JObj b |})
  /\ result (endpoint_wrapper "/api/search"
               (tavily_agent.handle_search (LC := Samples.chain))
               (Demo.post_json (JArr [JStr "rocq"])) Demo.fresh)
     = Return {| status_code := 500;
                 body := JObj [("error", JStr "'list' object has no attribute 'get'")] |}.
Proof.
  split.
  - exact (proj1 (search_endpoint_status (LC := Samples.chain) Demo.fresh "/api/search"
             (Demo.post_json (JObj [("query", JStr "offline")])))
             [("query", JStr "offline")] eq_refl).
  - refine (proj2 (proj2 (search_endpoint_status (LC := Samples.chain) Demo.fresh
             "/api/search" (Demo.post_json (JArr [JStr "rocq"]))))
             (JArr [JStr "rocq"]) eq_refl _).
    intros fields. discriminate.
Defined.

(** X19.  [main] returns early exactly when its list of missing keys is
    not empty; the list names a key exactly when that key is absent or
    empty; and on the early return it prints the one line with the names
    and creates no server. *)
Theorem main_reports_missing_keys `{RT : AgentRuntime} `{LC : tavily_agent.LangChain}
    (env : tavily_agent.Environment) :
  (tavily_agent.ended (tavily_agent.main env) = tavily_agent.Main_returned
     <-> tavily_agent.missing env <> [])
  /\ (In "OPENAI_API_KEY" (tavily_agent.missing env)
        <-> truthy (tavily_agent.OPENAI_API_KEY env) = false)
  /\ (In "TAVILY_API_KEY" (tavily_agent.missing env)
        <-> truthy (tavily_agent.TAVILY_API_KEY env) = false)
  /\ (In "AGENT_KEY" (tavily_agent.missing env)
        <-> truthy (tavily_agent.AGENT_KEY env) = false)
  /\ (In "AGENTVERSE_TOKEN" (tavily_agent.missing env)
        <-> truthy (tavily_agent.AGENTVERSE_TOKEN env) = false)
  /\ (tavily_agent.missing env <> [] ->
        tavily_agent.printed (tavily_agent.main env)
          = ["Missing required API keys: "
             +:+ String.concat ", " (tavily_agent.missing env)]
        /\ tavily_agent.served (tavily_agent.main env) = None).
Proof.
  unfold tavily_agent.main, tavily_agent.missing. cbn [forallb].
  destruct (truthy (tavily_agent.OPENAI_API_KEY env)),
           (truthy (tavily_agent.TAVILY_API_KEY env)),
           (truthy (tavily_agent.AGENT_KEY env)),
           (truthy (tavily_agent.AGENTVERSE_TOKEN env)); cbn.
  all: repeat split; try done; try (intros; cbn in *; intuition congruence).
  all: destruct (tavily_agent.TavilySearchAgent_init _ _); cbn; try done.
  all: destruct (result _); done.
Qed.

(** X20.  With the four keys present and the search agent built, [main]
    binds [handle_search] at [/api/search] for POST after the two built-in
    routes and starts the server: the directory is given the webhook URL
    [http://0.0.0.0:5002/api/webhook].  If the registration returns, the
    listener thread is started once and the two lines are printed; if it
    raises, [main] raises that exception and prints nothing. *)
Theorem main_serves_search `{RT : AgentRuntime} `{LC : tavily_agent.LangChain}
    (env : tavily_agent.Environment) (openai tavily key token : string) (i : Identity) :
  tavily_agent.OPENAI_API_KEY env = Some openai -> openai <> "" ->
  tavily_agent.TAVILY_API_KEY env = Some tavily -> tavily <> "" ->
  tavily_agent.AGENT_KEY env = Some key -> key <> "" ->
  tavily_agent.AGENTVERSE_TOKEN env = Some token -> token <> "" ->
  tavily_agent.TavilySearchAgent_init openai tavily = Return tt ->
  Identity_from_seed key 0 = Return i ->
  exists r,
    tavily_agent.served (tavily_agent.main env) = Some r
    /\ url_map (final r)
       = [ {| rule := "/api/webhook"; methods := ["POST"]; view_func := View_webhook |};
           {| rule := "/api/health"; methods := ["GET"]; view_func := View_health_check |};
           {| rule := "/api/search"; methods := ["POST"];
              view_func := View_endpoint_wrapper "/api/search" tavily_agent.handle_search |} ]
    /\ registrations (emitted r)
       = [(i, "http://0.0.0.0:5002/api/webhook", token, "Tavily Search Agent",
           readme tavily_agent.metadata)]
    /\ (result r = Return tt ->
          tavily_agent.ended (tavily_agent.main env) = tavily_agent.Main_serving
          /\ tavily_agent.printed (tavily_agent.main env)
             = ["Tavily Search Agent running at http://localhost:5002"; "Press Ctrl+C to exit"]
          /\ thread_starts (emitted r) = 1
          /\ identity (final r) = Some i)
    /\ (forall e, result r = Raise e ->
          tavily_agent.ended (tavily_agent.main env) = tavily_agent.Main_raised e
          /\ tavily_agent.printed (tavily_agent.main env) = []
          /\ thread_starts (emitted r) = 0).
Proof.
  intros Ho Ho' Htv Htv' Hk Hk' Ht Ht' Hinit Hi.
  unfold tavily_agent.main. rewrite Ho, Htv, Hk, Ht. cbn [forallb truthy default].
  apply String.eqb_neq in Ho', Htv'. rewrite Ho', Htv'.
  pose proof Hk' as Hk''. pose proof Ht' as Ht''.
  apply String.eqb_neq in Hk'', Ht''. rewrite Hk'', Ht''. cbn [negb andb].
  unfold id. rewrite Hinit. cbn zeta.
  set (server := AgentServer_init _ _ _ _).
  unfold mbind, M_bind, bind.
  rewrite (register_endpoint_run "search" _ None server eq_refl eq_refl). cbn zeta.
  replace (startswith "search" "/") with false by reflexivity.
  set (bound := set_url_map _ server).
  rewrite start_run.
  rewrite (init_agent_registered bound key token i eq_refl Hk' eq_refl Ht' Hi).
  cbn zeta.
  destruct (register_with_agentverse _ _ _ _ _) as [[]|e0]; cbn.
  - eexists. split; [done|]. split_and!; try done; by intros e' [=].
  - eexists. split; [done|]. split_and!; try done; by intros e' [= <-].
Qed.

Lemma main_serves_search_witness :
  exists r,
    tavily_agent.served (tavily_agent.main (RT := Demo.runtime) (LC := Samples.chain)
                           Samples.env) = Some r
    /\ result r = Return tt
    /\ thread_starts (emitted r) = 1.
Proof.
  destruct (main_serves_search (RT := Demo.runtime) (LC := Samples.chain) Samples.env
              "sk-openai" "tvly" "seed" "token" {| address := "agent1qseed" |}
              eq_refl ltac:(discriminate) eq_refl ltac:(discriminate)
              eq_refl ltac:(discriminate) eq_refl ltac:(discriminate)
              eq_refl eq_refl) as (r & Hs & _ & _ & H & _).
  exists r. split; [exact Hs|].
  injection Hs as <-.
  split; [reflexivity|]. exact (proj1 (proj2 (proj2 (H eq_refl)))).
Defined.

(** * The test client *)

(** X21.  [send_direct_api_request] posts [{"query": query}] to
    [http://localhost:5002/api/search] and never raises.  Only the status
    code decides between success and failure: a 200 reply's JSON body is
    returned as it is, whatever it says; any other status gives an error
    report ["HTTP <code>: <text>"]; an exception of the transport or of
    reading the JSON body gives an error report with its message. *)
Theorem send_direct_api_request_reports `{RQ : test_client.Requests} (query : string) :
  (forall e,
     test_client.requests_post "http://localhost:5002/api/search"
       (JObj [("query", JStr query)]) = Raise e ->
     test_client.send_direct_api_request query = test_client.error_dict (exc_str e))
  /\ (forall response,
        test_client.requests_post "http://localhost:5002/api/search"
          (JObj [("query", JStr query)]) = Return response ->
        (test_client.response_status_code response <> 200%Z ->
           test_client.send_direct_api_request query
             = test_client.error_dict
                 ("HTTP " +:+ pretty (test_client.response_status_code response) +:+ ": "
                  +:+ test_client.response_text response))
        /\ (test_client.response_status_code response = 200%Z ->
              forall j, test_client.response_json response = Return j ->
              test_client.send_direct_api_request query = j)
        /\ (test_client.response_status_code response = 200%Z ->
              forall e, test_client.response_json response = Raise e ->
              test_client.send_direct_api_request query
                = test_client.error_dict (exc_str e))).
Proof.
  unfold test_client.send_direct_api_request. split.
  - by intros e ->.
  - intros response ->. split_and!.
    + intros Hne. apply Z.eqb_neq in Hne. by rewrite Hne.
    + intros -> j ->. done.
    + intros -> e ->. done.
Qed.

Lemma send_direct_api_request_reports_witness :
  test_client.send_direct_api_request (RQ := Samples.http) "offline"
    = test_client.error_dict "HTTP 503: Service Unavailable"
  /\ test_client.send_direct_api_request (RQ := Samples.http) "rocq"
     = JObj [("query", JStr "rocq")].
Proof.
  split.
  - refine (proj1 (proj2 (send_direct_api_request_reports (RQ := Samples.http) "offline")
             _ eq_refl) _). discriminate.
  - exact (proj1 (proj2 (proj2 (send_direct_api_request_reports (RQ := Samples.http) "rocq")
             _ eq_refl)) eq_refl (JObj [("query", JStr "rocq")]) eq_refl).
Defined.

(** X22.  [send_agentverse_message] makes at most one outbound send.  It
    makes none when the client key is missing, which it reports first, or
    when the agent address is missing; and it reports success only after
    one send of [{"query": query}] to the agent address that returned. *)
Theorem send_agentverse_message_guards `{RT : AgentRuntime}
    (CLIENT_KEY AGENT_ADDRESS : option string) (query : string) :
  length (test_client.send_agentverse_message CLIENT_KEY AGENT_ADDRESS query).2 <= 1
  /\ (truthy CLIENT_KEY = false ->
        test_client.send_agentverse_message CLIENT_KEY AGENT_ADDRESS query
          = (test_client.error_dict "Missing CLIENT_KEY environment variable", []))
  /\ (truthy CLIENT_KEY = true -> truthy AGENT_ADDRESS = false ->
        test_client.send_agentverse_message CLIENT_KEY AGENT_ADDRESS query
          = (test_client.error_dict "Missing agent address", []))
  /\ (json_get "status" (test_client.send_agentverse_message CLIENT_KEY AGENT_ADDRESS query).1
        = Some (JStr "success") ->
      exists client_identity a,
        AGENT_ADDRESS = Some a
        /\ (test_client.send_agentverse_message CLIENT_KEY AGENT_ADDRESS query).2
           = [Send_message_to_agent client_identity a (JObj [("query", JStr query)])]
        /\ send_message_to_agent client_identity a (JObj [("query", JStr query)])
           = Return tt).
Proof.
  unfold test_client.send_agentverse_message.
  destruct (truthy CLIENT_KEY) eqn:Hk; cbn [negb]; [|split_and!; done || cbn; lia || done].
  destruct (truthy AGENT_ADDRESS) eqn:Ha; cbn [negb]; [|split_and!; done || cbn; lia || done].
  apply truthy_true in Ha as (a & -> & Ha).
  destruct (Identity_from_seed _ 0) as [cid|e]; [|split_and!; done || cbn; lia || done].
  cbn zeta. change (default "" (Some a)) with a.
  destruct (send_message_to_agent cid a (JObj [("query", JStr query)])) as [[]|e] eqn:Hs; cbn.
  - split_and!; try done; try lia. intros _. by exists cid, a.
  - split_and!; try done; lia.
Qed.

(** X23.  The client's [main] prints exactly one item and makes at most
    one outbound send.  With the agentverse method and no agent address it
    prints the usage error and sends nothing, whatever the client key;
    with the api method it prints the result of the direct request and
    makes no agent send. *)
Theorem client_main_dispatches `{RT : AgentRuntime} `{RQ : test_client.Requests}
    (CLIENT_KEY : option string) (args : test_client.Args) :
  length (test_client.main CLIENT_KEY args).1 = 1
  /\ length (test_client.main CLIENT_KEY args).2 <= 1
  /\ (test_client.method args = test_client.agentverse ->
      truthy (test_client.agent_address args) = false ->
        test_client.main CLIENT_KEY args
          = ([test_client.Print
                "Error: --agent-address is required when using the agentverse method"], []))
  /\ (test_client.method args = test_client.api ->
        test_client.main CLIENT_KEY args
          = ([test_client.Print_json
                (test_client.send_direct_api_request (test_client.query args))], [])).
Proof.
  unfold test_client.main.
  pose proof (send_agentverse_message_guards CLIENT_KEY (test_client.agent_address args)
                (test_client.query args)) as (Hlen & _).
  destruct (test_client.method args); cbn zeta.
  - split_and!; try done. cbn. lia.
  - destruct (truthy (test_client.agent_address args)); cbn [negb].
    + destruct (test_client.send_agentverse_message _ _ _) as [res sent].
      split_and!; done.
    + split_and!; try done. cbn. lia.
Qed.

(** * The second custom endpoint *)




